(** * BookReview frontend: authentication store, API client and views

    A shallow embedding of the client-side logic of the BookReview
    single-page application:

    - [src/services/api.ts]: the [ApiService] class, its request and
      response interceptors and its API methods;
    - [src/contexts/AuthContext.tsx]: [authReducer] and the operations of
      [AuthProvider] ([initializeAuth], [login], [register], [logout],
      [updateProfile], [changePassword], [refreshProfile]);
    - [src/components/FavoriteButton.tsx]: the favorite-status query, the
      two favorite mutations and the click handler;
    - [src/components/RecommendationDashboard.tsx]: the feedback handlers,
      the render of the recommendation view and the chips of a card;
    - [src/App.tsx]: the two route guards;
    - [src/components/Layout/Header.tsx]: the logout and search handlers;
    - the pages: the submit handlers of the login and registration pages,
      the profile and password handlers of the profile page, the favorite
      and review handlers of the book details page, the removal handler of
      the favorites page and the dialog and search handlers of the reviews
      page.

    Modelling conventions.

    - The browser and the module state the code touches form one record
      [World]: [localStorage], the default headers of the axios instance,
      [window.location.href], the [console.error] log, the reducer state
      held by [useReducer], the query cache, and the list of requests handed
      to the network.
    - An [async] function is a computation [M A]: it takes the world and
      returns the world it leaves together with either a value or the
      exception it throws.  Each operation runs to completion; the outcome
      of every network call it awaits is an explicit argument ([Reply]).
      Interleaving of several operations is outside the model.
    - Numeric identifiers are integers ([Z]); the [confidence] of a
      recommendation, a fraction, is left out.
    - A text is a [string], the bytes of its UTF-8 encoding.  Where the
      code counts or compares the UTF-16 code units of a text ([length],
      [trim], [split]), [JsString.units] gives them.
    - The payload user of a reducer action is a user or [null]: its
      declared type is erased at run time and the provider does not check
      what it dispatches.
    - A handler of a component is a function of the component state it
      reads; it returns the state it leaves and, where it calls [navigate],
      the path it navigates to.
    - The query cache is a library of its own and not part of the
      repository: its three operations are modelled from the contract the
      specification states for it.
    - [JSON.stringify], [JSON.parse] on user records are builtins of the
      platform: they are section variables, so every theorem holds for any
      behaviour of theirs. *)

From Stdlib Require Import Ascii.
From stdpp Require Import base option list gmap strings pretty.

Local Open Scope string_scope.
Local Open Scope Z_scope.

(** ** JavaScript helpers *)

Module Js.

(** Truthiness of a [string | null] value: [null] and the empty string are
    falsy, every other string is truthy. *)
Definition truthy (v : option string) : bool :=
  match v with
  | None => false
  | Some s => negb (String.eqb s "")
  end.

(** [a || b] on strings where [a] may be [undefined]. *)
Definition or_else (a : option string) (b : string) : string :=
  match a with
  | Some s => if String.eqb s "" then b else s
  | None => b
  end.

(** [s.includes(sub)]: [sub] occurs in [s] as a contiguous substring. *)
Fixpoint includes (s sub : string) : bool :=
  String.prefix sub s ||
  match s with
  | EmptyString => false
  | String _ s' => includes s' sub
  end.

(** Template-literal interpolation of an integer. *)
Definition of_number (n : Z) : string := pretty n.

(** Values that occur as properties of the object literals sent as
    request bodies. *)
Inductive value :=
| Undefined
| Str (s : string)
| Num (n : Z)
| Bool (b : bool).

#[global] Instance value_eq_dec : EqDecision value.
Proof. solve_decision. Defined.

(** An object literal: its properties in the order they are written. *)
Definition object := list (string * value).

Definition is_defined (v : value) : bool :=
  match v with
  | Undefined => false
  | _ => true
  end.

(** The properties of an object that reach the wire: the JSON encoding of
    an object omits every property whose value is [undefined]. *)
Definition wire (o : object) : object :=
  List.filter (fun kv => is_defined (snd kv)) o.

Definition keys (o : object) : list string := List.map fst o.

End Js.

(** ** Types ([src/types/index.ts]) *)

Record User := {
  id : Z;
  name : string;
  email : string;
  bio : option string;
  avatarUrl : option string;
  emailVerified : bool;
  active : bool;
  createdAt : string;
  reviewCount : Z;
  favoriteBooksCount : Z;
}.

Record LoginData := {
  login_email : string;
  login_password : string;
  rememberMe : option bool;
}.

Record JwtResponse := {
  jwt_token : string;
  jwt_type : string;
  userId : Z;
  jwt_name : string;
  jwt_email : string;
  expiresAt : string;
}.

Record ApiResponse (A : Type) := {
  success : bool;
  message : string;
  data : option A;
}.
Arguments success {A} _.
Arguments message {A} _.
Arguments data {A} _.

Record ProfileUpdateData := {
  pu_name : option string;
  pu_bio : option string;
  pu_avatarUrl : option string;
}.

Record PasswordChangeData := {
  currentPassword : string;
  newPassword : string;
  confirmPassword : string;
}.

(** The body of [GET /auth/validate]. *)
Record Validation := {
  valid : bool;
  v_userId : Z;
  v_email : string;
  v_name : string;
}.

Record Book := {
  book_id : Z;
  title : string;
  author : string;
  genres : string;
}.

Inductive FeedbackType := like | dislike.

Definition FeedbackType_to_string (t : FeedbackType) : string :=
  match t with
  | like => "like"
  | dislike => "dislike"
  end.

(** A recommendation as the view receives it.  The card guards against a
    missing [book], so the field is optional here; [confidence] is left
    out. *)
Record Recommendation := {
  book : option Book;
  explanation : string;
  rec_type : string;
  recommendedAt : string;
}.

Record RecommendationResponse := {
  recommendations : list Recommendation;
  rr_userId : Z;
  count : Z;
  refreshedAt : string;
}.

(** [RecommendationResponse & { aiAvailable: boolean }]. *)
Record AIRecommendationResponse := {
  ai_base : RecommendationResponse;
  aiAvailable : bool;
}.

(** ** The authentication reducer ([AuthContext.tsx]) *)

Record AuthState := {
  user : option User;
  token : option string;
  loading : bool;
  isAuthenticated : bool;
}.

(** The actions.  The payload user of [LOGIN_SUCCESS] and [SET_USER] is
    declared a [User], but the declaration is erased at run time and the
    provider dispatches values it never checks (what [JSON.parse] gave for
    the persisted user): the payload is a user or [null]. *)
Inductive AuthAction :=
| SET_LOADING (payload : bool)
| LOGIN_SUCCESS (payload_user : option User) (payload_token : string)
| LOGIN_FAILURE
| LOGOUT
| SET_USER (payload : option User).

Definition initialState : AuthState :=
  {| user := None; token := None; loading := true; isAuthenticated := false |}.

Definition authReducer (state : AuthState) (action : AuthAction) : AuthState :=
  match action with
  | SET_LOADING payload =>
      {| user := user state; token := token state;
         loading := payload; isAuthenticated := isAuthenticated state |}
  | LOGIN_SUCCESS u t =>
      {| user := u; token := Some t;
         loading := false; isAuthenticated := true |}
  | LOGIN_FAILURE =>
      {| user := None; token := None;
         loading := false; isAuthenticated := false |}
  | LOGOUT =>
      {| user := None; token := None;
         loading := false; isAuthenticated := false |}
  | SET_USER payload =>
      {| user := payload; token := token state;
         loading := false; isAuthenticated := true |}
  end.

(** The state after a sequence of dispatched actions, oldest first. *)
Definition run_actions (s : AuthState) (actions : list AuthAction) : AuthState :=
  fold_left authReducer actions s.

(** ** HTTP requests, replies and exceptions *)

Inductive Method := GET | POST | PUT | DELETE.

(** An axios request configuration, as the transport receives it. *)
Record Request := {
  method : Method;
  url : string;
  headers : gmap string string;
  params : Js.object;
  body : option Js.object;
}.

Definition set_header (k v : string) (config : Request) : Request :=
  {| method := method config; url := url config;
     headers := <[k := v]> (headers config);
     params := params config; body := body config |}.

(** What the network answers to one request: a 2xx response with its parsed
    body, a response with another status (axios rejects it), or no response
    at all. *)
Inductive Reply (A : Type) :=
| Ok2xx (response_data : A)
| HttpError (status : Z) (text : string)
| NetworkError (text : string).
Arguments Ok2xx {A} _.
Arguments HttpError {A} _ _.
Arguments NetworkError {A} _.

(** Exceptions.  [AxiosError] carries [error.config?.url] and
    [error.response?.status]. *)
Inductive JsError :=
| AxiosError (config_url : option string) (response_status : option Z) (text : string)
| Error (text : string)
| SyntaxError (text : string).

Definition response_status_of (e : JsError) : option Z :=
  match e with
  | AxiosError _ st _ => st
  | _ => None
  end.

Definition config_url_of (e : JsError) : option string :=
  match e with
  | AxiosError u _ _ => u
  | _ => None
  end.

(** ** The query cache

    The application keeps server data in a query cache (the
    [@tanstack/react-query] client created in [App.tsx]).  The library is
    not part of the repository; the cache is modelled below from the
    contract the specification gives for it. *)

(** One component of a cache key such as [['bookFavorite', bookId]]. *)
Inductive KeyPart :=
| KStr (s : string)
| KNum (n : Z).

#[global] Instance KeyPart_eq_dec : EqDecision KeyPart.
Proof. solve_decision. Defined.

#[global] Instance KeyPart_countable : Countable KeyPart.
Proof.
  refine (inj_countable'
            (fun k => match k with KStr s => inl s | KNum n => inr n end)
            (fun x => match x with inl s => KStr s | inr n => KNum n end) _).
  by intros [].
Defined.

(** Data held under a key. *)
Inductive QueryData :=
| FavoriteStatus (favorited : bool) (bookId : Z)
| FavoritesPage (bookIds : list Z).

(** Modelled from the spec: an entry of the Query/Mutation Cache (the cache
    library is not under [src/]): the data of the last successful fetch,
    when it was fetched (milliseconds), and whether the entry has been
    marked for refetch. *)
Record Entry := {
  entry_data : QueryData;
  dataUpdatedAt : Z;
  isInvalidated : bool;
}.

(** ** The world *)

Record World := {
  localStorage : gmap string string;
  defaults_common : gmap string string;
  location_href : string;
  console : list (string * JsError);
  state : AuthState;
  queries : gmap (list KeyPart) Entry;
  sent : list Request;
}.

Definition with_localStorage (f : gmap string string -> gmap string string) (w : World) : World :=
  {| localStorage := f (localStorage w); defaults_common := defaults_common w;
     location_href := location_href w; console := console w; state := state w;
     queries := queries w; sent := sent w |}.

Definition with_defaults_common (f : gmap string string -> gmap string string) (w : World) : World :=
  {| localStorage := localStorage w; defaults_common := f (defaults_common w);
     location_href := location_href w; console := console w; state := state w;
     queries := queries w; sent := sent w |}.

Definition with_location_href (h : string) (w : World) : World :=
  {| localStorage := localStorage w; defaults_common := defaults_common w;
     location_href := h; console := console w; state := state w;
     queries := queries w; sent := sent w |}.

Definition with_console (f : list (string * JsError) -> list (string * JsError)) (w : World) : World :=
  {| localStorage := localStorage w; defaults_common := defaults_common w;
     location_href := location_href w; console := f (console w); state := state w;
     queries := queries w; sent := sent w |}.

Definition with_state (f : AuthState -> AuthState) (w : World) : World :=
  {| localStorage := localStorage w; defaults_common := defaults_common w;
     location_href := location_href w; console := console w; state := f (state w);
     queries := queries w; sent := sent w |}.

Definition with_queries (f : gmap (list KeyPart) Entry -> gmap (list KeyPart) Entry) (w : World) : World :=
  {| localStorage := localStorage w; defaults_common := defaults_common w;
     location_href := location_href w; console := console w; state := state w;
     queries := f (queries w); sent := sent w |}.

Definition with_sent (f : list Request -> list Request) (w : World) : World :=
  {| localStorage := localStorage w; defaults_common := defaults_common w;
     location_href := location_href w; console := console w; state := state w;
     queries := queries w; sent := f (sent w) |}.

(** The world of a freshly loaded page with the given persisted storage. *)
Definition page_load (storage : gmap string string) : World :=
  {| localStorage := storage; defaults_common := ∅; location_href := "/";
     console := []; state := initialState; queries := ∅; sent := [] |}.

(** ** Computations *)

Inductive Outcome (A : Type) :=
| Returned (a : A)
| Thrown (e : JsError).
Arguments Returned {A} _.
Arguments Thrown {A} _.

Definition M (A : Type) : Type := World -> Outcome A * World.

Definition ret {A} (a : A) : M A := fun w => (Returned a, w).

Definition throw {A} (e : JsError) : M A := fun w => (Thrown e, w).

Definition bind {A B} (m : M A) (k : A -> M B) : M B :=
  fun w =>
    match m w with
    | (Returned a, w') => k a w'
    | (Thrown e, w') => (Thrown e, w')
    end.

(** [try { m } catch (error) { handler error }]. *)
Definition try_catch {A} (m : M A) (handler : JsError -> M A) : M A :=
  fun w =>
    match m w with
    | (Returned a, w') => (Returned a, w')
    | (Thrown e, w') => handler e w'
    end.

(** [try { m } finally { cleanup }]: [cleanup] always runs; the outcome is
    that of [m] unless [cleanup] itself throws. *)
Definition try_finally {A} (m : M A) (cleanup : M unit) : M A :=
  fun w =>
    match m w with
    | (r, w') =>
        match cleanup w' with
        | (Returned _, w'') => (r, w'')
        | (Thrown e, w'') => (Thrown e, w'')
        end
    end.

Definition modify (f : World -> World) : M unit := fun w => (Returned tt, f w).

Definition gets {A} (f : World -> A) : M A := fun w => (Returned (f w), w).

Declare Scope js_scope.
Delimit Scope js_scope with js.
Notation "x <- m ;; k" := (bind m (fun x => k))
  (at level 100, m at next level, right associativity) : js_scope.
Notation "m ;; k" := (bind m (fun _ => k))
  (at level 100, right associativity) : js_scope.
Local Open Scope js_scope.

(** The world a computation leaves and the outcome it ends with. *)
Definition world_after {A} (m : M A) (w : World) : World := snd (m w).
Definition outcome_of {A} (m : M A) (w : World) : Outcome A := fst (m w).

(** *** Browser primitives *)

Definition localStorage_getItem (k : string) : M (option string) :=
  gets (fun w => localStorage w !! k).

Definition localStorage_setItem (k v : string) : M unit :=
  modify (with_localStorage (insert k v)).

Definition localStorage_removeItem (k : string) : M unit :=
  modify (with_localStorage (delete k)).

Definition set_location_href (h : string) : M unit :=
  modify (with_location_href h).

Definition console_error (label : string) (e : JsError) : M unit :=
  modify (with_console (fun l => (l ++ [(label, e)])%list)).

(** [dispatch] of [useReducer]. *)
Definition dispatch (action : AuthAction) : M unit :=
  modify (with_state (fun s => authReducer s action)).

(** ** The API client ([src/services/api.ts]) *)

Record FavoriteCheck := {
  favorited : bool;
  fc_bookId : Z;
}.

(** Further response and request types of [src/types/index.ts]. *)

Record RegisterData := {
  reg_name : string;
  reg_email : string;
  reg_password : string;
  reg_bio : option string;
}.

(** The [user] and [book] objects a review carries. *)
Record ReviewUser := {
  ru_id : Z;
  ru_name : string;
  ru_email : string;
}.

Record ReviewBook := {
  rb_id : Z;
  rb_title : string;
  rb_author : string;
  rb_genres : option string;
}.

(** A review.  [review_user] is optional: the page that drafts a review
    fills it from the signed-in user, which may be [null]. *)
Record Review := {
  review_id : Z;
  rating : Z;
  reviewText : option string;
  review_user : option ReviewUser;
  review_book : ReviewBook;
  review_createdAt : string;
  review_updatedAt : string;
}.

Record PaginatedResponse (A : Type) := {
  content : list A;
  totalElements : Z;
  totalPages : Z;
  currentPage : Z;
  page_size : Z;
  first : bool;
  last : bool;
}.
Arguments content {A} _.
Arguments totalElements {A} _.
Arguments totalPages {A} _.
Arguments currentPage {A} _.
Arguments page_size {A} _.
Arguments first {A} _.
Arguments last {A} _.

(** The body of [GET /books/{id}/similar]. *)
Record SimilarBooks := {
  sb_bookId : Z;
  similarBooks : list Book;
  sb_count : Z;
}.

Module apiService.

(** The request interceptor: reads the token from [localStorage] when the
    request is made and, if it is truthy, sets the [Authorization]
    header of this request. *)
Definition requestInterceptor (config : Request) : M Request :=
  token <- localStorage_getItem "token";;
  if Js.truthy token
  then ret (set_header "Authorization" ("Bearer " ++ default "" token) config)
  else ret config.

(** The rejection handler of the response interceptor. *)
Definition responseInterceptor_onRejected {A} (error : JsError) : M A :=
  (if bool_decide (response_status_of error = Some 401) then
     let url := Js.or_else (config_url_of error) "" in
     if Js.includes url "/auth/" || Js.includes url "/profile" then
       localStorage_removeItem "token";;
       localStorage_removeItem "user";;
       set_location_href "/login"
     else ret tt
   else ret tt);;
  throw error.

(** One call of [this.api.<method>(url, ...)]: the configuration starts
    from the instance headers (the [Content-Type] given to
    [axios.create] over [defaults.headers.common]), passes the request
    interceptor, is handed to the network, and the reply passes the
    response interceptor. *)
Definition request {A} (m : Method) (u : string) (ps : Js.object)
    (b : option Js.object) (reply : Reply A) : M A :=
  common <- gets defaults_common;;
  config <- requestInterceptor
              {| method := m; url := u;
                 headers := <["Content-Type" := "application/json"]> common;
                 params := ps; body := b |};;
  modify (with_sent (fun l => (l ++ [config])%list));;
  match reply with
  | Ok2xx d => ret d
  | HttpError st msg => responseInterceptor_onRejected (AxiosError (Some u) (Some st) msg)
  | NetworkError msg => responseInterceptor_onRejected (AxiosError (Some u) None msg)
  end.

Definition LoginData_object (d : LoginData) : Js.object :=
  ([("email", Js.Str (login_email d)); ("password", Js.Str (login_password d))]
   ++ match rememberMe d with
      | Some r => [("rememberMe", Js.Bool r)]
      | None => []
      end)%list.

Definition optional (v : option string) : Js.value :=
  match v with
  | Some s => Js.Str s
  | None => Js.Undefined
  end.

Definition ProfileUpdateData_object (d : ProfileUpdateData) : Js.object :=
  [("name", optional (pu_name d)); ("bio", optional (pu_bio d));
   ("avatarUrl", optional (pu_avatarUrl d))].

Definition login (loginData : LoginData) (reply : Reply JwtResponse) : M JwtResponse :=
  request POST "/auth/login" [] (Some (LoginData_object loginData)) reply.

Definition validateToken (reply : Reply Validation) : M Validation :=
  request GET "/auth/validate" [] None reply.

Definition logout (reply : Reply unit) : M unit :=
  request POST "/auth/logout" [] None reply.

Definition getUserProfile (reply : Reply User) : M User :=
  request GET "/auth/profile" [] None reply.

Definition updateUserProfile (profileData : ProfileUpdateData)
    (reply : Reply (ApiResponse User)) : M (ApiResponse User) :=
  request PUT "/auth/profile" [] (Some (ProfileUpdateData_object profileData)) reply.

Definition changePassword (passwordData : PasswordChangeData)
    (reply : Reply (ApiResponse unit)) : M (ApiResponse unit) :=
  request PUT "/auth/change-password" []
    (Some [("currentPassword", Js.Str (currentPassword passwordData));
           ("newPassword", Js.Str (newPassword passwordData))])
    reply.

Definition addToFavorites (bookId : Z) (reply : Reply (ApiResponse unit)) : M (ApiResponse unit) :=
  request POST ("/books/" ++ Js.of_number bookId ++ "/favorite") [] None reply.

Definition removeFromFavorites (bookId : Z) (reply : Reply (ApiResponse unit)) : M (ApiResponse unit) :=
  request DELETE ("/books/" ++ Js.of_number bookId ++ "/favorite") [] None reply.

Definition checkFavoriteStatus (bookId : Z) (reply : Reply FavoriteCheck) : M FavoriteCheck :=
  request GET ("/books/" ++ Js.of_number bookId ++ "/favorite") [] None reply.

Definition submitRecommendationFeedback (recommendationId : Z)
    (feedbackType : FeedbackType) (reason : option string)
    (reply : Reply (ApiResponse unit)) : M (ApiResponse unit) :=
  request POST ("/books/recommendations/" ++ Js.of_number recommendationId ++ "/feedback") []
    (Some [("type", Js.Str (FeedbackType_to_string feedbackType));
           ("reason", optional reason)])
    reply.

Definition setAuthToken (token : string) : M unit :=
  modify (with_defaults_common (insert "Authorization" ("Bearer " ++ token))).

Definition clearAuthToken : M unit :=
  modify (with_defaults_common (delete "Authorization")).

(** *** The remaining API methods

    A parameter with a default value is an [option]: [None] is an omitted
    argument. *)

Definition RegisterData_object (d : RegisterData) : Js.object :=
  [("name", Js.Str (reg_name d)); ("email", Js.Str (reg_email d));
   ("password", Js.Str (reg_password d)); ("bio", optional (reg_bio d))].

Definition register (registerData : RegisterData)
    (reply : Reply (ApiResponse User)) : M (ApiResponse User) :=
  request POST "/auth/register" [] (Some (RegisterData_object registerData)) reply.

Definition refreshToken (refreshToken : string) (reply : Reply JwtResponse) : M JwtResponse :=
  request POST "/auth/refresh" [] (Some [("refreshToken", Js.Str refreshToken)]) reply.

Definition getBooks (page size : option Z) (sort direction : option string)
    (reply : Reply (PaginatedResponse Book)) : M (PaginatedResponse Book) :=
  request GET "/books"
    [("page", Js.Num (default 0 page)); ("size", Js.Num (default 10 size));
     ("sort", Js.Str (default "createdAt" sort));
     ("direction", Js.Str (default "desc" direction))]
    None reply.

Definition getBookById (id : Z) (reply : Reply Book) : M Book :=
  request GET ("/books/" ++ Js.of_number id) [] None reply.

Definition getBookDetails (id : Z) (reply : Reply Book) : M Book :=
  request GET ("/books/" ++ Js.of_number id) [] None reply.

Definition searchBooks (query : string) (page size : option Z)
    (reply : Reply (PaginatedResponse Book)) : M (PaginatedResponse Book) :=
  request GET "/books/search"
    [("query", Js.Str query); ("page", Js.Num (default 0 page));
     ("size", Js.Num (default 10 size))]
    None reply.

Definition getTopRatedBooks (limit : option Z) (reply : Reply (list Book)) : M (list Book) :=
  request GET "/books/top-rated" [("limit", Js.Num (default 10 limit))] None reply.

Definition getPopularBooks (limit : option Z) (reply : Reply (list Book)) : M (list Book) :=
  request GET "/books/popular" [("limit", Js.Num (default 10 limit))] None reply.

Definition getRecentBooks (limit : option Z) (reply : Reply (list Book)) : M (list Book) :=
  request GET "/books/recent" [("limit", Js.Num (default 10 limit))] None reply.

Definition getUserFavorites (page size : option Z)
    (reply : Reply (PaginatedResponse Book)) : M (PaginatedResponse Book) :=
  request GET "/books/favorites"
    [("page", Js.Num (default 0 page)); ("size", Js.Num (default 10 size))]
    None reply.

Definition getRecommendations (limit : option Z)
    (reply : Reply RecommendationResponse) : M RecommendationResponse :=
  request GET "/books/recommendations" [("limit", Js.Num (default 10 limit))] None reply.

Definition getAIRecommendations (limit : option Z)
    (reply : Reply AIRecommendationResponse) : M AIRecommendationResponse :=
  request GET "/books/ai-recommendations" [("limit", Js.Num (default 3 limit))] None reply.

Definition getSimilarBooks (bookId : Z) (limit : option Z)
    (reply : Reply SimilarBooks) : M SimilarBooks :=
  request GET ("/books/" ++ Js.of_number bookId ++ "/similar")
    [("limit", Js.Num (default 10 limit))] None reply.

Definition getBookReviews (bookId : Z) (page size : option Z)
    (reply : Reply (PaginatedResponse Review)) : M (PaginatedResponse Review) :=
  request GET ("/books/" ++ Js.of_number bookId ++ "/reviews")
    [("page", Js.Num (default 0 page)); ("size", Js.Num (default 10 size))]
    None reply.

Definition createReview (bookId rating : Z) (reviewText : string)
    (reply : Reply (ApiResponse Review)) : M (ApiResponse Review) :=
  request POST ("/books/" ++ Js.of_number bookId ++ "/reviews") []
    (Some [("rating", Js.Num rating); ("reviewText", Js.Str reviewText)]) reply.

Definition getUserReviews (userId : Z) (page size : option Z)
    (reply : Reply (PaginatedResponse Review)) : M (PaginatedResponse Review) :=
  request GET ("/users/" ++ Js.of_number userId ++ "/reviews")
    [("page", Js.Num (default 0 page)); ("size", Js.Num (default 10 size))]
    None reply.

Definition getMyReviews (page size : option Z)
    (reply : Reply (PaginatedResponse Review)) : M (PaginatedResponse Review) :=
  request GET "/auth/my-reviews"
    [("page", Js.Num (default 0 page)); ("size", Js.Num (default 10 size))]
    None reply.

Definition submitReview (bookId rating : Z) (reviewText : option string)
    (reply : Reply (ApiResponse Review)) : M (ApiResponse Review) :=
  request POST ("/books/" ++ Js.of_number bookId ++ "/reviews") []
    (Some [("rating", Js.Num rating); ("reviewText", optional reviewText)]) reply.

Definition updateReview (reviewId rating : Z) (reviewText : option string)
    (reply : Reply (ApiResponse Review)) : M (ApiResponse Review) :=
  request PUT ("/reviews/" ++ Js.of_number reviewId) []
    (Some [("rating", Js.Num rating); ("reviewText", optional reviewText)]) reply.

Definition deleteReview (reviewId : Z) (reply : Reply (ApiResponse unit)) : M (ApiResponse unit) :=
  request DELETE ("/reviews/" ++ Js.of_number reviewId) [] None reply.

End apiService.

(** ** The authentication provider ([AuthContext.tsx]) *)

Module AuthProvider.
Section Platform.

(** [JSON.stringify] on a user record. *)
Variable JSON_stringify : User -> string.
(** [JSON.parse] of the persisted user string: [None] when it throws a
    [SyntaxError], [Some None] when the text is the JSON value [null], and
    otherwise the value read at the type the code gives it ([User]). *)
Variable JSON_parse : string -> option (option User).

Definition parse (s : string) : M (option User) :=
  match JSON_parse s with
  | Some u => ret u
  | None => throw (SyntaxError "Unexpected token in JSON")
  end.

(** The effect run once when the provider mounts. *)
Definition initializeAuth (reply : Reply Validation) : M unit :=
  token <- localStorage_getItem "token";;
  userStr <- localStorage_getItem "user";;
  if Js.truthy token && Js.truthy userStr then
    try_catch
      (validation <- apiService.validateToken reply;;
       if valid validation then
         user <- parse (default "" userStr);;
         apiService.setAuthToken (default "" token);;
         dispatch (LOGIN_SUCCESS user (default "" token))
       else
         localStorage_removeItem "token";;
         localStorage_removeItem "user";;
         dispatch LOGIN_FAILURE)
      (fun error =>
         console_error "AuthContext - Token validation error:" error;;
         localStorage_removeItem "token";;
         localStorage_removeItem "user";;
         dispatch LOGIN_FAILURE)
  else
    dispatch (SET_LOADING false).

(** The user record [login] builds from the login response; [now] is
    [new Date().toISOString()]. *)
Definition user_of_response (response : JwtResponse) (now : string) : User :=
  {| id := userId response;
     name := jwt_name response;
     email := jwt_email response;
     bio := None;
     avatarUrl := None;
     emailVerified := true;
     active := true;
     createdAt := now;
     reviewCount := 0;
     favoriteBooksCount := 0 |}.

Definition login (now : string) (email password : string)
    (reply : Reply JwtResponse) : M unit :=
  dispatch (SET_LOADING true);;
  try_catch
    (let loginData :=
       {| login_email := email; login_password := password; rememberMe := None |} in
     response <- apiService.login loginData reply;;
     let user := user_of_response response now in
     localStorage_setItem "token" (jwt_token response);;
     localStorage_setItem "user" (JSON_stringify user);;
     apiService.setAuthToken (jwt_token response);;
     dispatch (LOGIN_SUCCESS (Some user) (jwt_token response)))
    (fun error =>
       dispatch LOGIN_FAILURE;;
       throw error).

Definition logout (reply : Reply unit) : M unit :=
  try_finally
    (try_catch
       (apiService.logout reply)
       (fun error => console_error "Logout error:" error))
    (localStorage_removeItem "token";;
     localStorage_removeItem "user";;
     apiService.clearAuthToken;;
     dispatch LOGOUT).

Definition updateProfile (profileData : ProfileUpdateData)
    (reply : Reply (ApiResponse User)) : M unit :=
  dispatch (SET_LOADING true);;
  try_catch
    (response <- apiService.updateUserProfile profileData reply;;
     match (if success response then data response else None) with
     | Some d =>
         localStorage_setItem "user" (JSON_stringify d);;
         dispatch (SET_USER (Some d))
     | None =>
         throw (Error (Js.or_else (Some (message response)) "Profile update failed"))
     end)
    (fun error =>
       dispatch (SET_LOADING false);;
       throw error).

Definition changePassword (passwordData : PasswordChangeData)
    (reply : Reply (ApiResponse unit)) : M unit :=
  if negb (String.eqb (newPassword passwordData) (confirmPassword passwordData)) then
    throw (Error "New password and confirm password do not match")
  else
    try_catch
      (response <- apiService.changePassword passwordData reply;;
       if negb (success response) then
         throw (Error (Js.or_else (Some (message response)) "Password change failed"))
       else ret tt)
      (fun error => throw error).

Definition refreshProfile (reply : Reply User) : M unit :=
  authenticated <- gets (fun w => isAuthenticated (state w));;
  if negb authenticated then ret tt
  else
    try_catch
      (profile <- apiService.getUserProfile reply;;
       localStorage_setItem "user" (JSON_stringify profile);;
       dispatch (SET_USER (Some profile)))
      (fun error => console_error "Failed to refresh profile:" error).

(** [register]: the registration request and, when it succeeded, a login
    with the same credentials; [login_reply] is what the login request is
    answered with. *)
Definition register (now : string) (userData : RegisterData)
    (reply : Reply (ApiResponse User)) (login_reply : Reply JwtResponse) : M unit :=
  dispatch (SET_LOADING true);;
  try_catch
    (response <- apiService.register userData reply;;
     if success response && bool_decide (is_Some (data response)) then
       login now (reg_email userData) (reg_password userData) login_reply
     else
       dispatch LOGIN_FAILURE;;
       throw (Error (Js.or_else (Some (message response)) "Registration failed")))
    (fun error =>
       dispatch LOGIN_FAILURE;;
       throw error).

End Platform.
End AuthProvider.

(** ** The query and mutation cache *)

Module queryClient.

(** The stale time [App.tsx] gives the client: five minutes, in
    milliseconds. *)
Definition defaultStaleTime : Z := 5 * 60 * 1000.

(** What a read of the cache gives back; [fetched] tells whether the read
    called the fetch function. *)
Record QueryResult := {
  result_data : option QueryData;
  result_error : option JsError;
  fetched : bool;
}.

(** Modelled from the spec: marking one entry of the Query/Mutation Cache
    for refetch (the cache library is not under [src/]). *)
Definition invalidate (e : Entry) : Entry :=
  {| entry_data := entry_data e; dataUpdatedAt := dataUpdatedAt e;
     isInvalidated := true |}.

(** Modelled from the spec: [invalidate(keyPrefix)] of the Query/Mutation
    Cache (the cache library is not under [src/]).  It marks every cached
    entry whose key starts with the given prefix as stale; it does not
    fetch. *)
Definition invalidateQueries (queryKey : list KeyPart) : M unit :=
  modify (with_queries
            (map_imap (fun k e =>
               Some (if bool_decide (queryKey `prefix_of` k) then invalidate e else e)))).

(** Modelled from the spec: the freshness test of the Query/Mutation Cache
    (the cache library is not under [src/]).  An entry is served from the
    cache while it is inside its stale-time window and has not been
    invalidated. *)
Definition is_fresh (staleTimeMs now : Z) (e : Entry) : bool :=
  negb (isInvalidated e) && bool_decide (now - dataUpdatedAt e < staleTimeMs).

(** Modelled from the spec: [query(key, fetchFn, {staleTimeMs, enabled})]
    of the Query/Mutation Cache (the cache library is not under [src/]).
    A disabled query never fetches; an enabled one returns the cached data
    while the entry is fresh and otherwise calls [fetchFn] once and stores
    what it returns under the key.  A failed fetch is reported in the
    result, not thrown. *)
Definition query (queryKey : list KeyPart) (queryFn : M QueryData)
    (staleTimeMs : Z) (enabled : bool) (now : Z) : M QueryResult :=
  cached <- gets (fun w => queries w !! queryKey);;
  if enabled && negb (from_option (is_fresh staleTimeMs now) false cached) then
    try_catch
      (d <- queryFn;;
       modify (with_queries
                 (insert queryKey
                    {| entry_data := d; dataUpdatedAt := now; isInvalidated := false |}));;
       ret {| result_data := Some d; result_error := None; fetched := true |})
      (fun error =>
         ret {| result_data := entry_data <$> cached; result_error := Some error;
                fetched := true |})
  else
    ret {| result_data := entry_data <$> cached; result_error := None; fetched := false |}.

(** Modelled from the spec: [mutate(fetchFn)] of the Query/Mutation Cache
    with its [onSuccess] callback (the cache library is not under
    [src/]).  The callback runs only when the mutation function succeeds;
    [mutate] never throws to its caller. *)
Definition mutate {A} (mutationFn : M A) (onSuccess : M unit) : M unit :=
  try_catch (mutationFn;; onSuccess) (fun _ => ret tt).

End queryClient.

(** ** The favorite button ([src/components/FavoriteButton.tsx]) *)

Module FavoriteButton.

Definition favoriteKey (bookId : Z) : list KeyPart :=
  [KStr "bookFavorite"; KNum bookId].

Definition userFavoritesKey : list KeyPart := [KStr "userFavorites"].

(** [!!bookId && isAuthenticated]: zero is falsy (the pages use 0 for a
    missing book id). *)
Definition enabled (bookId : Z) (w : World) : bool :=
  negb (bookId =? 0) && isAuthenticated (state w).

(** The favorite-status query of the component, read at time [now]. *)
Definition favoriteQuery (bookId : Z) (now : Z) (reply : Reply FavoriteCheck)
    : M queryClient.QueryResult :=
  on <- gets (enabled bookId);;
  queryClient.query (favoriteKey bookId)
    (r <- apiService.checkFavoriteStatus bookId reply;;
     ret (FavoriteStatus (favorited r) (fc_bookId r)))
    queryClient.defaultStaleTime on now.

Definition onSuccess (bookId : Z) : M unit :=
  queryClient.invalidateQueries (favoriteKey bookId);;
  queryClient.invalidateQueries userFavoritesKey.

Definition addToFavoritesMutation (bookId : Z) (reply : Reply (ApiResponse unit)) : M unit :=
  queryClient.mutate (apiService.addToFavorites bookId reply) (onSuccess bookId).

Definition removeFromFavoritesMutation (bookId : Z) (reply : Reply (ApiResponse unit)) : M unit :=
  queryClient.mutate (apiService.removeFromFavorites bookId reply) (onSuccess bookId).

(** [favoriteData?.favorited || false] on the data the query holds. *)
Definition isFavorited (bookId : Z) (w : World) : bool :=
  match entry_data <$> (queries w !! favoriteKey bookId) with
  | Some (FavoriteStatus f _) => f
  | _ => false
  end.

Definition handleFavoriteToggle (bookId : Z) (reply : Reply (ApiResponse unit)) : M unit :=
  authenticated <- gets (fun w => isAuthenticated (state w));;
  if negb authenticated then ret tt
  else
    fav <- gets (isFavorited bookId);;
    if fav then removeFromFavoritesMutation bookId reply
    else addToFavoritesMutation bookId reply.

End FavoriteButton.

(** ** The recommendation view ([src/components/RecommendationDashboard.tsx]) *)

Module RecommendationDashboard.

(** The variables of the feedback mutation. *)
Record FeedbackVariables := {
  recommendationId : Z;
  feedbackType : FeedbackType;
}.

Definition feedbackMutation_mutationFn (variables : FeedbackVariables)
    (reply : Reply (ApiResponse unit)) : M (ApiResponse unit) :=
  apiService.submitRecommendationFeedback
    (recommendationId variables) (feedbackType variables) None reply.

Definition handleFeedback (recommendationId : Z) (feedbackType : FeedbackType)
    (reply : Reply (ApiResponse unit)) : M unit :=
  try_catch
    (queryClient.mutate
       (feedbackMutation_mutationFn
          {| recommendationId := recommendationId; feedbackType := feedbackType |} reply)
       (ret tt))
    (fun error => console_error "Error submitting feedback:" error).

(** The click handlers of a card that rendered, that is of a
    recommendation with a book. *)
Definition handleLike (book : Book) (onFeedback : Z -> FeedbackType -> M unit) : M unit :=
  onFeedback (book_id book) like.

Definition handleDislike (book : Book) (onFeedback : Z -> FeedbackType -> M unit) : M unit :=
  onFeedback (book_id book) dislike.

(** A click on the like or dislike button of the card of [book], as the
    dashboard wires it: [onFeedback] is [handleFeedback]. *)
Definition click_like (book : Book) (reply : Reply (ApiResponse unit)) : M unit :=
  handleLike book (fun i t => handleFeedback i t reply).

Definition click_dislike (book : Book) (reply : Reply (ApiResponse unit)) : M unit :=
  handleDislike book (fun i t => handleFeedback i t reply).

Definition click (t : FeedbackType) (book : Book) (reply : Reply (ApiResponse unit)) : M unit :=
  match t with
  | like => click_like book reply
  | dislike => click_dislike book reply
  end.

(** Several clicks on the feedback buttons of one card, in order, each with
    the reply its request gets. *)
Fixpoint clicks (book : Book) (events : list (FeedbackType * Reply (ApiResponse unit))) : M unit :=
  match events with
  | [] => ret tt
  | (t, reply) :: rest => click t book reply;; clicks book rest
  end.

(** What one render of the dashboard reads: the props, the component
    state and the results of its two queries. *)
Record View := {
  limit : nat;
  showHeader : bool;
  authenticated : bool;
  componentError : option string;
  tabValue : Z;
  recommendationData : option RecommendationResponse;
  isLoading : bool;
  error : option JsError;
  aiRecommendationData : option AIRecommendationResponse;
  aiIsLoading : bool;
  aiError : option JsError;
}.

(** The elements a render produces, top to bottom. *)
Inductive Element :=
| Title
| HeaderWithTabs
| ComponentErrorAlert (text : string)
| LoginInfoAlert
| AINotAvailableAlert
| SkeletonCards (n : nat)
| LoadFailedAlert (text : string)
| EmptyListAlert (text : string)
| CardGrid (cards : list Recommendation).

#[global] Instance Element_inhabited : Inhabited Element := populate Title.

Definition getCurrentRecommendations (v : View) : list Recommendation :=
  if tabValue v =? 0
  then from_option recommendations [] (recommendationData v)
  else from_option (fun d => recommendations (ai_base d)) [] (aiRecommendationData v).

Definition getCurrentLoading (v : View) : bool :=
  if tabValue v =? 0 then isLoading v else aiIsLoading v.

Definition getCurrentError (v : View) : option JsError :=
  if tabValue v =? 0 then error v else aiError v.

Definition personalizedEmptyText : string :=
  "No personalized recommendations available right now. Try adding some books to your favorites to get personalized suggestions!".

Definition aiEmptyText : string :=
  "No AI recommendations available. Make sure you have some favorite books and that AI is properly configured.".

Definition loadFailedText (v : View) : string :=
  "Failed to load " ++ (if tabValue v =? 0 then "personalized" else "AI")
    ++ " recommendations. Please try again.".

(** [aiRecommendationData?.aiAvailable === false]. *)
Definition aiReportedUnavailable (v : View) : bool :=
  match aiRecommendationData v with
  | Some d => negb (aiAvailable d)
  | None => false
  end.

(** The list area: exactly one of skeletons, load error, empty-list
    alert and card grid. *)
Definition listArea (v : View) : Element :=
  if getCurrentLoading v then SkeletonCards (limit v)
  else if bool_decide (is_Some (getCurrentError v)) then LoadFailedAlert (loadFailedText v)
  else if (length (getCurrentRecommendations v) =? 0)%nat then
         EmptyListAlert (if tabValue v =? 0 then personalizedEmptyText else aiEmptyText)
  else CardGrid (getCurrentRecommendations v).

(** The tab content: the not-available alert when its condition holds,
    then the list area. *)
Definition tabContent (v : View) : list Element :=
  ((if (tabValue v =? 1) && aiReportedUnavailable v then [AINotAvailableAlert] else [])
   ++ [listArea v])%list.

Definition render (v : View) : list Element :=
  if Js.truthy (componentError v) then
    ((if showHeader v then [Title] else [])
     ++ [ComponentErrorAlert (default "" (componentError v))])%list
  else if negb (authenticated v) then
    ((if showHeader v then [Title] else []) ++ [LoginInfoAlert])%list
  else
    ((if showHeader v then [HeaderWithTabs] else []) ++ tabContent v)%list.

End RecommendationDashboard.

(** ** JavaScript strings

    A JavaScript string is a sequence of UTF-16 code units; [length],
    [trim] and [split] count and compare code units.  The model keeps a
    text as a [string], the bytes of its UTF-8 encoding, and [units] gives
    the code units of a text where the code looks at them. *)

Module JsString.

(** A string as JavaScript sees it: its code units. *)
Definition t := list N.

Definition bytes (s : string) : list N := N_of_ascii <$> String.list_ascii_of_string s.

(** A continuation byte of UTF-8. *)
Definition continuation (b : N) : bool := ((128 <=? b) && (b <=? 191))%N.

(** The code points of a sequence of UTF-8 bytes.  A byte that starts no
    well-formed sequence (also an overlong form or an encoded surrogate)
    gives U+FFFD. *)
Fixpoint code_points (bs : list N) : list N :=
  match bs with
  | [] => []
  | b0 :: rest =>
      if (b0 <? 128)%N then b0 :: code_points rest
      else
        match rest with
        | [] => [65533%N]
        | b1 :: rest1 =>
            if ((194 <=? b0) && (b0 <=? 223))%N && continuation b1 then
              ((b0 - 192) * 64 + (b1 - 128))%N :: code_points rest1
            else
              match rest1 with
              | [] => 65533%N :: code_points rest
              | b2 :: rest2 =>
                  let cp3 := ((b0 - 224) * 4096 + (b1 - 128) * 64 + (b2 - 128))%N in
                  if ((224 <=? b0) && (b0 <=? 239))%N && continuation b1 && continuation b2
                     && (2048 <=? cp3)%N && negb ((55296 <=? cp3) && (cp3 <=? 57343))%N then
                    cp3 :: code_points rest2
                  else
                    match rest2 with
                    | [] => 65533%N :: code_points rest
                    | b3 :: rest3 =>
                        let cp4 := ((b0 - 240) * 262144 + (b1 - 128) * 4096
                                    + (b2 - 128) * 64 + (b3 - 128))%N in
                        if ((240 <=? b0) && (b0 <=? 244))%N && continuation b1
                           && continuation b2 && continuation b3
                           && (65536 <=? cp4)%N && (cp4 <=? 1114111)%N then
                          cp4 :: code_points rest3
                        else 65533%N :: code_points rest
                    end
              end
        end
  end.

(** The UTF-16 code units of a code point: itself, or a surrogate pair. *)
Definition utf16 (cp : N) : list N :=
  if (cp <? 65536)%N then [cp]
  else [(55296 + (cp - 65536) / 1024)%N; (56320 + (cp - 65536) mod 1024)%N].

(** The code units of a text. *)
Definition units (s : string) : t := code_points (bytes s) ≫= utf16.

(** [s.length]. *)
Definition length (s : t) : nat := List.length s.

(** A non-empty string is truthy. *)
Definition truthy (s : t) : bool :=
  match s with
  | [] => false
  | _ :: _ => true
  end.

(** The code units [trim] strips: the white space and line terminators of
    the language.  White space is TAB, VT, FF, SP, NBSP, ZWNBSP (U+FEFF)
    and the space separators U+1680, U+2000 to U+200A, U+202F, U+205F and
    U+3000; the line terminators are LF, CR, U+2028 and U+2029. *)
Definition is_space (c : N) : bool :=
  bool_decide (c ∈ [9; 10; 11; 12; 13; 32; 160; 5760; 8232; 8233; 8239; 8287;
                    12288; 65279]%N)
  || ((8192 <=? c) && (c <=? 8202))%N.

Fixpoint trimStart (s : t) : t :=
  match s with
  | [] => []
  | c :: s' => if is_space c then trimStart s' else s
  end.

Fixpoint trimEnd (s : t) : t :=
  match s with
  | [] => []
  | c :: s' =>
      match trimEnd s' with
      | [] => if is_space c then [] else [c]
      | r => c :: r
      end
  end.

(** [s.trim()]. *)
Definition trim (s : t) : t := trimEnd (trimStart s).

(** [s.split(sep)] for a separator of one code unit: the pieces between
    the separators, in order; the empty string gives one empty piece. *)
Fixpoint split (sep : N) (s : t) : list t :=
  match s with
  | [] => [[]]
  | c :: s' =>
      if bool_decide (c = sep) then [] :: split sep s'
      else match split sep s' with
           | piece :: pieces => (c :: piece) :: pieces
           | [] => [[c]]
           end
  end.

End JsString.

(** ** Error objects as the pages read them *)

(** [error.message].  For a rejected response axios builds the message from
    the status; otherwise it is the text the error was created with. *)
Definition error_message (e : JsError) : string :=
  match e with
  | AxiosError _ (Some st) _ => "Request failed with status code " ++ Js.of_number st
  | AxiosError _ None t => t
  | Error t => t
  | SyntaxError t => t
  end.

(** [error.response?.data?.message]: the text of a rejected response is the
    message of its payload, empty when the payload has none. *)
Definition response_data_message (e : JsError) : option string :=
  match e with
  | AxiosError _ (Some _) t => Some t
  | _ => None
  end.

(** ** Route guards ([src/App.tsx]) *)

Module App.

Inductive RouteElement :=
| LoadingPlaceholder
| Navigate (to : string)
| Children.

Definition ProtectedRoute (s : AuthState) : RouteElement :=
  if loading s then LoadingPlaceholder
  else if negb (isAuthenticated s) then Navigate "/login"
  else Children.

Definition PublicRoute (s : AuthState) : RouteElement :=
  if loading s then LoadingPlaceholder
  else if isAuthenticated s then Navigate "/"
  else Children.

End App.

(** ** The header ([src/components/Layout/Header.tsx])

    A handler that calls [navigate] returns the path it navigates to. *)

Module Header.

(** [handleSearch] on the current text of the search box.
    [encodeURIComponent] is the builtin: it returns ASCII text, or throws
    a [URIError] (on a text with a lone surrogate). *)
Definition handleSearch (encodeURIComponent : JsString.t -> Outcome string)
    (searchQuery : string) : Outcome (option string) :=
  let trimmed := JsString.trim (JsString.units searchQuery) in
  if JsString.truthy trimmed then
    match encodeURIComponent trimmed with
    | Returned encoded => Returned (Some ("/search?q=" ++ encoded))
    | Thrown error => Thrown error
    end
  else Returned None.

Definition handleLogout (reply : Reply unit) : M (option string) :=
  try_catch
    (AuthProvider.logout reply;;
     ret (Some "/"))
    (fun error =>
       console_error "Logout error:" error;;
       ret None).

End Header.

(** ** The login page ([src/pages/Auth/LoginPage.tsx]) *)

Module LoginPage.

Record LoginFormData := {
  form_email : string;
  form_password : string;
  form_rememberMe : option bool;
}.

(** What a submission leaves: the error the page shows and the path it
    navigated to (with [replace]). *)
Record Submitted := {
  shown_error : option string;
  navigated : option string;
}.

(** [onSubmit]; [from] is [location.state?.from?.pathname]. *)
Definition onSubmit (JSON_stringify : User -> string) (now : string)
    (from : option string) (data : LoginFormData) (reply : Reply JwtResponse)
    : M Submitted :=
  try_catch
    (AuthProvider.login JSON_stringify now (form_email data) (form_password data) reply;;
     ret {| shown_error := None; navigated := Some (Js.or_else from "/") |})
    (fun error =>
       console_error "Login error:" error;;
       if bool_decide (response_status_of error = Some 401) then
         ret {| shown_error := Some "Invalid email or password. Please try again.";
                navigated := None |}
       else if Js.truthy (response_data_message error) then
         ret {| shown_error := response_data_message error; navigated := None |}
       else
         ret {| shown_error := Some "Login failed. Please try again."; navigated := None |}).

End LoginPage.

(** ** The registration page ([src/pages/Auth/RegisterPage.tsx]) *)

Module RegisterPage.

Record RegisterFormData := {
  form_name : string;
  form_email : string;
  form_password : string;
  form_confirmPassword : string;
  form_bio : option string;
}.

(** What a submission leaves: the error and success texts the page shows
    and the navigation it schedules (delay in milliseconds, path). *)
Record Submitted := {
  shown_error : option string;
  shown_success : option string;
  scheduled : option (Z * string);
}.

(** The argument of [registerUser]: [bio: data.bio || undefined]. *)
Definition registration (data : RegisterFormData) : RegisterData :=
  {| reg_name := form_name data;
     reg_email := form_email data;
     reg_password := form_password data;
     reg_bio := if Js.truthy (form_bio data) then form_bio data else None |}.

Definition onSubmit (JSON_stringify : User -> string) (now : string)
    (data : RegisterFormData) (reply : Reply (ApiResponse User))
    (login_reply : Reply JwtResponse) : M Submitted :=
  try_catch
    (AuthProvider.register JSON_stringify now (registration data) reply login_reply;;
     ret {| shown_error := None;
            shown_success := Some "Registration successful! Redirecting to dashboard...";
            scheduled := Some (2000, "/") |})
    (fun error =>
       console_error "Registration error:" error;;
       if bool_decide (response_status_of error = Some 400) then
         ret {| shown_error := Some "User already exists or invalid data. Please try again.";
                shown_success := None; scheduled := None |}
       else if Js.truthy (response_data_message error) then
         ret {| shown_error := response_data_message error;
                shown_success := None; scheduled := None |}
       else
         ret {| shown_error := Some "Registration failed. Please try again.";
                shown_success := None; scheduled := None |}).

End RegisterPage.

(** ** The profile page ([src/pages/ProfilePage.tsx]) *)

Module ProfilePage.

Record ProfileFormData := {
  form_name : string;
  form_bio : string;
  form_avatarUrl : string;
}.

(** The component state the two handlers read and write. *)
Record PageState := {
  editMode : bool;
  passwordDialogOpen : bool;
  profileForm : ProfileFormData;
  passwordForm : PasswordChangeData;
  updateLoading : bool;
  shown_error : option string;
  shown_success : option string;
}.

Definition set_messages (e s : option string) (loadingNow : bool) (p : PageState) : PageState :=
  {| editMode := editMode p; passwordDialogOpen := passwordDialogOpen p;
     profileForm := profileForm p; passwordForm := passwordForm p;
     updateLoading := loadingNow; shown_error := e; shown_success := s |}.

Definition set_editMode (b : bool) (p : PageState) : PageState :=
  {| editMode := b; passwordDialogOpen := passwordDialogOpen p;
     profileForm := profileForm p; passwordForm := passwordForm p;
     updateLoading := updateLoading p; shown_error := shown_error p;
     shown_success := shown_success p |}.

Definition set_updateLoading (b : bool) (p : PageState) : PageState :=
  {| editMode := editMode p; passwordDialogOpen := passwordDialogOpen p;
     profileForm := profileForm p; passwordForm := passwordForm p;
     updateLoading := b; shown_error := shown_error p;
     shown_success := shown_success p |}.

Definition emptyPasswordForm : PasswordChangeData :=
  {| currentPassword := ""; newPassword := ""; confirmPassword := "" |}.

(** The [updateData] object [handleProfileUpdate] builds: a key for each
    form field that differs from the current user. *)
Definition updateData (form : ProfileFormData) (u : option User) : ProfileUpdateData :=
  {| pu_name :=
       if bool_decide (Some (form_name form) <> (name <$> u)) then Some (form_name form)
       else None;
     pu_bio :=
       if negb (String.eqb (form_bio form) (Js.or_else (u ≫= bio) "")) then Some (form_bio form)
       else None;
     pu_avatarUrl :=
       if negb (String.eqb (form_avatarUrl form) (Js.or_else (u ≫= avatarUrl) ""))
       then Some (form_avatarUrl form)
       else None |}.

(** [Object.keys(updateData).length > 0]. *)
Definition has_keys (d : ProfileUpdateData) : bool :=
  bool_decide (is_Some (pu_name d)) || bool_decide (is_Some (pu_bio d))
  || bool_decide (is_Some (pu_avatarUrl d)).

(** [handleProfileUpdate]; the [finally] block is the last step. *)
Definition handleProfileUpdate (JSON_stringify : User -> string) (p : PageState)
    (reply : Reply (ApiResponse User)) : M PageState :=
  let p0 := set_messages None None true p in
  u <- gets (fun w => user (state w));;
  p1 <- try_catch
          (let d := updateData (profileForm p0) u in
           if has_keys d then
             AuthProvider.updateProfile JSON_stringify d reply;;
             ret (set_editMode false
                    (set_messages None (Some "Profile updated successfully!") true p0))
           else ret (set_editMode false p0))
          (fun err =>
             ret (set_messages
                    (Some (Js.or_else (Some (error_message err)) "Failed to update profile"))
                    None true p0));;
  ret (set_updateLoading false p1).

(** [handlePasswordChange]; the [finally] block is the last step. *)
Definition handlePasswordChange (p : PageState) (reply : Reply (ApiResponse unit))
    : M PageState :=
  let p0 := set_messages None None true p in
  p1 <- try_catch
          (AuthProvider.changePassword (passwordForm p0) reply;;
           ret {| editMode := editMode p0; passwordDialogOpen := false;
                  profileForm := profileForm p0; passwordForm := emptyPasswordForm;
                  updateLoading := true; shown_error := None;
                  shown_success := Some "Password changed successfully!" |})
          (fun err =>
             ret (set_messages
                    (Some (Js.or_else (Some (error_message err)) "Failed to change password"))
                    None true p0));;
  ret (set_updateLoading false p1).

(** [handleCancelEdit]: the form goes back to the current user. *)
Definition handleCancelEdit (p : PageState) (u : option User) : PageState :=
  {| editMode := false; passwordDialogOpen := passwordDialogOpen p;
     profileForm :=
       match u with
       | Some usr =>
           {| form_name := Js.or_else (Some (name usr)) "";
              form_bio := Js.or_else (bio usr) "";
              form_avatarUrl := Js.or_else (avatarUrl usr) "" |}
       | None => profileForm p
       end;
     passwordForm := passwordForm p; updateLoading := updateLoading p;
     shown_error := None; shown_success := shown_success p |}.

End ProfilePage.

(** ** The recommendation card ([src/components/RecommendationDashboard.tsx]) *)

Module RecommendationCard.

Inductive Icon :=
| AutoAwesome
| TrendingUp
| Star
| FavoriteOutlined
| SmartToy
| BookmarkAdd.

Definition getTypeIcon (type : string) : Icon :=
  if String.eqb type "genre_similarity" then AutoAwesome
  else if String.eqb type "community_favorite" then TrendingUp
  else if String.eqb type "genre_trending" then Star
  else if String.eqb type "user_favorite" then FavoriteOutlined
  else if String.eqb type "ai_recommendation" then SmartToy
  else BookmarkAdd.

Definition getTypeColor (type : string) : string :=
  if String.eqb type "genre_similarity" then "primary"
  else if String.eqb type "community_favorite" then "secondary"
  else if String.eqb type "genre_trending" then "warning"
  else if String.eqb type "user_favorite" then "error"
  else if String.eqb type "ai_recommendation" then "success"
  else "default".

(** The labels of the genre chips of a card:
    [book.genres && book.genres.split(',').slice(0, 2).map(genre => genre.trim())]. *)
Definition genreChips (book : Book) : list JsString.t :=
  if JsString.truthy (JsString.units (genres book))
  then JsString.trim <$> take 2 (JsString.split 44 (JsString.units (genres book)))
  else [].

(** [handleViewBook]: the path it navigates to. *)
Definition handleViewBook (book : Book) : string :=
  "/books/" ++ Js.of_number (book_id book).

End RecommendationCard.

(** ** The book details page ([src/pages/BookDetailsPage.tsx])

    [bookId] is the number the page parsed from the route. *)

Module BookDetailsPage.

Record ReviewFormData := {
  form_rating : Z;
  form_reviewText : option string;
}.

(** The component state the handlers write. *)
Record PageState := {
  reviewsPage : Z;
  isReviewDialogOpen : bool;
  reviewSubmitError : option string;
}.

(** What a handler leaves: the component state and the path it navigated
    to. *)
Record Handled := {
  page : PageState;
  navigated : option string;
}.

Definition favoriteKey (bookId : Z) : list KeyPart :=
  [KStr "bookFavorite"; KNum bookId].

Definition addToFavoritesMutation (bookId : Z) (reply : Reply (ApiResponse unit)) : M unit :=
  queryClient.mutate (apiService.addToFavorites bookId reply)
    (queryClient.invalidateQueries (favoriteKey bookId)).

Definition removeFromFavoritesMutation (bookId : Z) (reply : Reply (ApiResponse unit)) : M unit :=
  queryClient.mutate (apiService.removeFromFavorites bookId reply)
    (queryClient.invalidateQueries (favoriteKey bookId)).

(** [favoriteData?.favorited] on the data the favorite-status query of the
    page holds. *)
Definition favorited_now (bookId : Z) (w : World) : bool :=
  match entry_data <$> (queries w !! favoriteKey bookId) with
  | Some (FavoriteStatus f _) => f
  | _ => false
  end.

Definition handleFavoriteToggle (bookId : Z) (reply : Reply (ApiResponse unit))
    : M (option string) :=
  authenticated <- gets (fun w => isAuthenticated (state w));;
  if negb authenticated then ret (Some "/login")
  else
    fav <- gets (favorited_now bookId);;
    (if fav then removeFromFavoritesMutation bookId reply
     else addToFavoritesMutation bookId reply);;
    ret None.

(** Modelled from the spec: the submit-review mutation runs as
    [queryClient.mutate] does (the cache library is not under [src/]), with
    [onSuccess] or [onError] acting on the component state after
    [mutationFn]; nothing is thrown to the caller. *)
Definition submitReviewMutation (bookId : Z) (data : ReviewFormData) (p : PageState)
    (reply : Reply (ApiResponse Review)) : M PageState :=
  try_catch
    (apiService.createReview bookId (form_rating data)
       (Js.or_else (form_reviewText data) "") reply;;
     queryClient.invalidateQueries [KStr "bookReviews"; KNum bookId];;
     queryClient.invalidateQueries [KStr "book"; KNum bookId];;
     ret {| reviewsPage := reviewsPage p; isReviewDialogOpen := false;
            reviewSubmitError := None |})
    (fun error =>
       ret {| reviewsPage := reviewsPage p; isReviewDialogOpen := isReviewDialogOpen p;
              reviewSubmitError :=
                Some (Js.or_else (response_data_message error) "Failed to submit review") |}).

Definition handleReviewSubmit (bookId : Z) (data : ReviewFormData) (p : PageState)
    (reply : Reply (ApiResponse Review)) : M Handled :=
  authenticated <- gets (fun w => isAuthenticated (state w));;
  if negb authenticated then ret {| page := p; navigated := Some "/login" |}
  else
    p' <- submitReviewMutation bookId data
            {| reviewsPage := reviewsPage p; isReviewDialogOpen := isReviewDialogOpen p;
               reviewSubmitError := None |} reply;;
    ret {| page := p'; navigated := None |}.

(** [handleReviewsPageChange]: the pagination control counts from 1. *)
Definition handleReviewsPageChange (newPage : Z) (p : PageState) : PageState :=
  {| reviewsPage := newPage - 1; isReviewDialogOpen := isReviewDialogOpen p;
     reviewSubmitError := reviewSubmitError p |}.

End BookDetailsPage.

(** ** The favorites page ([src/pages/FavoritesPage.tsx]) *)

Module FavoritesPage.

Definition removeFromFavoritesMutation (bookId : Z) (reply : Reply (ApiResponse unit)) : M unit :=
  queryClient.mutate (apiService.removeFromFavorites bookId reply)
    (queryClient.invalidateQueries [KStr "userFavorites"]).

(** [handleRemoveFromFavorites]; [confirmed] is the answer to
    [window.confirm]. *)
Definition handleRemoveFromFavorites (confirmed : bool) (bookId : Z)
    (reply : Reply (ApiResponse unit)) : M unit :=
  if confirmed then removeFromFavoritesMutation bookId reply else ret tt.

End FavoritesPage.

(** ** The reviews page ([src/pages/MyReviewsPage.tsx]) *)

Module MyReviewsPage.

(** The component state the handlers read and write. *)
Record PageState := {
  isDialogOpen : bool;
  currentReview : option Review;
  searchQuery : string;
  selectedBook : option Book;
  isSearching : bool;
  searchResults : list Book;
  activeStep : Z;
}.



Definition handleDialogClose (p : PageState) : PageState :=
  {| isDialogOpen := false; currentReview := None; searchQuery := "";
     selectedBook := None; isSearching := isSearching p;
     searchResults := []; activeStep := 0 |}.

(** [handleBookSearch]; the [finally] block is the last step. *)
Definition handleBookSearch (query : string) (p : PageState)
    (reply : Reply (PaginatedResponse Book)) : M PageState :=
  let with_results (found : list Book) (searching : bool) :=
    {| isDialogOpen := isDialogOpen p; currentReview := currentReview p;
       searchQuery := query; selectedBook := selectedBook p;
       isSearching := searching; searchResults := found; activeStep := activeStep p |} in
  if (JsString.length (JsString.trim (JsString.units query)) <? 2)%nat then
    ret (with_results [] (isSearching p))
  else
    try_catch
      (response <- apiService.searchBooks query (Some 0) (Some 10) reply;;
       ret (with_results (content response) false))
      (fun error =>
         console_error "Book search failed:" error;;
         ret (with_results [] false)).


(** The variables [handleReviewSubmit] gives the mutation. *)
Record ReviewData := {
  rd_bookId : Z;
  rd_rating : Z;
  rd_reviewText : option string;
  rd_reviewId : option Z;
}.

(** [mutationFn] of the review mutation: [reviewData.reviewId] is tested
    for truthiness. *)
Definition reviewMutation_mutationFn (reviewData : ReviewData)
    (reply : Reply (ApiResponse Review)) : M (ApiResponse Review) :=
  match rd_reviewId reviewData with
  | Some reviewId =>
      if reviewId =? 0 then
        apiService.createReview (rd_bookId reviewData) (rd_rating reviewData)
          (Js.or_else (rd_reviewText reviewData) "") reply
      else
        apiService.updateReview reviewId (rd_rating reviewData)
          (rd_reviewText reviewData) reply
  | None =>
      apiService.createReview (rd_bookId reviewData) (rd_rating reviewData)
        (Js.or_else (rd_reviewText reviewData) "") reply
  end.

(** Modelled from the spec: the review mutation runs as
    [queryClient.mutate] does (the cache library is not under [src/]), with
    [onSuccess] acting on the component state only when [mutationFn]
    succeeds; nothing is thrown to the caller. *)
Definition reviewMutation (reviewData : ReviewData) (p : PageState)
    (reply : Reply (ApiResponse Review)) : M PageState :=
  try_catch
    (reviewMutation_mutationFn reviewData reply;;
     queryClient.invalidateQueries [KStr "myReviews"];;
     ret (handleDialogClose p))
    (fun _ => ret p).

Definition handleReviewSubmit (p : PageState) (reply : Reply (ApiResponse Review))
    : M PageState :=
  match currentReview p, selectedBook p with
  | Some review, Some book =>
      reviewMutation
        {| rd_bookId := book_id book; rd_rating := rating review;
           rd_reviewText := reviewText review;
           rd_reviewId := if 0 <? review_id review then Some (review_id review) else None |}
        p reply
  | _, _ => ret p
  end.

Definition deleteReviewMutation (reviewId : Z) (reply : Reply (ApiResponse unit)) : M unit :=
  queryClient.mutate (apiService.deleteReview reviewId reply)
    (queryClient.invalidateQueries [KStr "myReviews"]).

(** [handleReviewDelete]; [confirmed] is the answer to [window.confirm]. *)
Definition handleReviewDelete (confirmed : bool) (reviewId : Z)
    (reply : Reply (ApiResponse unit)) : M unit :=
  if confirmed then deleteReviewMutation reviewId reply else ret tt.

End MyReviewsPage.

(** * Specification vocabulary and fixtures *)

Import queryClient FavoriteButton RecommendationDashboard.

(** [sub] occurs in [s]. *)
Definition contains (s sub : string) : Prop :=
  exists a b, s = a ++ sub ++ b.

(** The action is as its type declares it: a [LOGIN_SUCCESS] or [SET_USER]
    carries a user, not [null]. *)
Definition carries_user (a : AuthAction) : bool :=
  match a with
  | LOGIN_SUCCESS None _ | SET_USER None => false
  | _ => true
  end.

(** The state [LOGIN_FAILURE] and [LOGOUT] produce. *)
Definition loggedOutState : AuthState :=
  {| user := None; token := None; loading := false; isAuthenticated := false |}.

(** The exception a reply raises for a request to [u], if any. *)
Definition rejection {A} (u : string) (reply : Reply A) : option JsError :=
  match reply with
  | Ok2xx _ => None
  | HttpError st msg => Some (AxiosError (Some u) (Some st) msg)
  | NetworkError msg => Some (AxiosError (Some u) None msg)
  end.

(** Either favorite mutation of the button. *)
Definition favoriteMutation (add : bool) : Z -> Reply (ApiResponse unit) -> M unit :=
  if add then addToFavoritesMutation else removeFromFavoritesMutation.

(** The keys the [onSuccess] handler of the button invalidates. *)
Definition touched (bookId : Z) (k : list KeyPart) : bool :=
  bool_decide (favoriteKey bookId `prefix_of` k) || bool_decide (userFavoritesKey `prefix_of` k).

(** ** Fixtures: the data of the test suites *)

Definition mockUser : User :=
  {| id := 1; name := "Test User"; email := "test@example.com";
     bio := None; avatarUrl := None; emailVerified := true; active := true;
     createdAt := "2024-01-01T00:00:00Z"; reviewCount := 5; favoriteBooksCount := 3 |}.

Definition mockJwtResponse : JwtResponse :=
  {| jwt_token := "new-jwt-token"; jwt_type := "Bearer"; userId := 1;
     jwt_name := "Test User"; jwt_email := "test@example.com";
     expiresAt := "2024-12-31T23:59:59Z" |}.

Definition mockValidation (ok : bool) : Validation :=
  {| valid := ok; v_userId := 1; v_email := "test@example.com"; v_name := "Test User" |}.

(** Stand-ins for the JSON builtins on the one record the tests persist. *)
Definition mock_stringify (u : User) : string := "<user " ++ name u ++ ">".

Definition mock_parse (s : string) : option (option User) :=
  if String.eqb s (mock_stringify mockUser) then Some (Some mockUser)
  else if String.eqb s "null" then Some None
  else None.

Definition mockStorage : gmap string string :=
  <["user" := mock_stringify mockUser]> (<["token" := "mock-jwt-token"]> ∅).

Definition mockOk : ApiResponse unit :=
  {| success := true; message := "ok"; data := None |}.

Definition mockBook : Book :=
  {| book_id := 1; title := "Test Book 1"; author := "Test Author 1"; genres := "Fiction,Drama" |}.

(** A session whose persisted token changed after [setAuthToken]. *)
Definition rotatedWorld : World :=
  world_after
    (apiService.setAuthToken "old-token";; localStorage_setItem "token" "rotated-token")%js
    (page_load ∅).

(** The world after a page load with the persisted session of the test
    suite and a successful token validation. *)
Definition signedInWorld : World :=
  world_after (AuthProvider.initializeAuth mock_parse (Ok2xx (mockValidation true)))
    (page_load mockStorage).

Definition emptyResponse : RecommendationResponse :=
  {| recommendations := []; rr_userId := 1; count := 0;
     refreshedAt := "2024-01-01T00:00:00Z" |}.

(** The AI tab of an authenticated user after the AI query answered with
    the given availability and an empty list. *)
Definition aiTabView (available : bool) : View :=
  {| limit := 3; showHeader := true; authenticated := true; componentError := None;
     tabValue := 1;
     recommendationData := Some emptyResponse; isLoading := false; error := None;
     aiRecommendationData := Some {| ai_base := emptyResponse; aiAvailable := available |};
     aiIsLoading := false; aiError := None |}.

(** The request an API call hands to the network in world [w]. *)
Definition outgoing (m : Method) (u : string) (ps : Js.object) (b : option Js.object)
    (w : World) : Request :=
  let config := {| method := m; url := u;
                   headers := <["Content-Type" := "application/json"]> (defaults_common w);
                   params := ps; body := b |} in
  if Js.truthy (localStorage w !! "token")
  then set_header "Authorization" ("Bearer " ++ default "" (localStorage w !! "token")) config
  else config.

(** The URLs whose 401 the response interceptor acts on. *)
Definition auth_sensitive (u : string) : bool :=
  Js.includes u "/auth/" || Js.includes u "/profile".

(** What the response interceptor does to the world on such a 401. *)
Definition forced_logout (w : World) : World :=
  with_location_href "/login"
    (with_localStorage (delete "user") (with_localStorage (delete "token") w)).

Definition is_401 {A} (reply : Reply A) : bool :=
  match reply with
  | HttpError st _ => bool_decide (st = 401)
  | _ => false
  end.

(** [c] occurs in [s]. *)
Fixpoint has_char (c : Ascii.ascii) (s : string) : bool :=
  match s with
  | EmptyString => false
  | String d s' => bool_decide (c = d) || has_char c s'
  end.

(** A call wipes the persisted session and sends the browser to the login
    view. *)
Definition forces_logout {A} (call : M A) (w : World) : Prop :=
  localStorage (world_after call w) !! "token" = None /\
  localStorage (world_after call w) !! "user" = None /\
  location_href (world_after call w) = "/login".

(** A call leaves the persisted entries and the location as they were. *)
Definition keeps_session {A} (call : M A) (w : World) : Prop :=
  localStorage (world_after call w) = localStorage w /\
  location_href (world_after call w) = location_href w.

(** A registration reply that lets [register] go on to the login. *)
Definition registered (reply : Reply (ApiResponse User)) : bool :=
  match reply with
  | Ok2xx r => success r && bool_decide (is_Some (data r))
  | _ => false
  end.

(** The error [register] throws for a reply that is not [registered]. *)
Definition registration_error (reply : Reply (ApiResponse User)) : JsError :=
  match reply with
  | Ok2xx r => Error (Js.or_else (Some (message r)) "Registration failed")
  | _ => default (Error "") (rejection "/auth/register" reply)
  end.

(** The user record a profile-update reply carries, if it is a success. *)
Definition updated_profile (reply : Reply (ApiResponse User)) : option User :=
  match reply with
  | Ok2xx r => if success r then data r else None
  | _ => None
  end.

(** Every code unit of [s] is white space. *)
Definition all_space (s : JsString.t) : bool := forallb JsString.is_space s.

(** A string with no white space at either end. *)
Definition trimmed (s : JsString.t) : Prop :=
  (forall c, head s = Some c -> JsString.is_space c = false) /\
  (forall c, list.last s = Some c -> JsString.is_space c = false).

(** The pieces joined with the separator between them. *)
Fixpoint join (sep : N) (pieces : list JsString.t) : JsString.t :=
  match pieces with
  | [] => []
  | [piece] => piece
  | piece :: rest => (piece ++ sep :: join sep rest)%list
  end.

(** The fields of the profile form that differ from the current user, as
    properties of a request body. *)
Definition changed_fields (form : ProfilePage.ProfileFormData) (u : option User) : Js.object :=
  ((if bool_decide (Some (ProfilePage.form_name form) <> (name <$> u))
    then [("name", Js.Str (ProfilePage.form_name form))] else [])
   ++ (if String.eqb (ProfilePage.form_bio form) (Js.or_else (u ≫= bio) "")
       then [] else [("bio", Js.Str (ProfilePage.form_bio form))])
   ++ (if String.eqb (ProfilePage.form_avatarUrl form) (Js.or_else (u ≫= avatarUrl) "")
       then [] else [("avatarUrl", Js.Str (ProfilePage.form_avatarUrl form))]))%list.

(** [c] is a decimal digit. *)
Definition is_digit (c : Ascii.ascii) : bool :=
  bool_decide (c ∈ ["0"; "1"; "2"; "3"; "4"; "5"; "6"; "7"; "8"; "9"]%char).

(** The reply is a 2xx response. *)
Definition is_ok {A} (reply : Reply A) : bool :=
  match reply with
  | Ok2xx _ => true
  | _ => false
  end.

(** The requests a handler sends when [go] holds: one, or none. *)
Definition when (go : bool) (req : Request) : list Request :=
  if go then [req] else [].


(** The body of a request that creates or updates a review. *)
Definition review_body (rating : Z) (text : option string) : Js.object :=
  ("rating", Js.Num rating) ::
  match text with
  | Some t => [("reviewText", Js.Str t)]
  | None => []
  end.

(** ** Further fixtures *)

(** The signed-in world of the test suite with two cached queries: the
    first page of the favorites list and the favorite status of book 1. *)
Definition favoritesWorld : World :=
  with_queries
    (fun _ =>
       <[[KStr "userFavorites"; KNum 0; KNum 12] :=
           {| entry_data := FavoritesPage [1]; dataUpdatedAt := 1000;
              isInvalidated := false |}]>
         (<[[KStr "bookFavorite"; KNum 1] :=
              {| entry_data := FavoriteStatus true 1; dataUpdatedAt := 1000;
                 isInvalidated := false |}]> ∅))
    signedInWorld.

(** The time of the login in the scenarios. *)
Definition loginTime : string := "2024-06-01T10:00:00.000Z".

(** A stand-in for [JSON.parse] on the record a login persists. *)
Definition mock_parse_login (s : string) : option (option User) :=
  let u := AuthProvider.user_of_response mockJwtResponse loginTime in
  if String.eqb s (mock_stringify u) then Some (Some u) else None.

(** A stand-in for [encodeURIComponent] on the texts of the scenarios:
    letters stay, a space becomes [%20]. *)
Definition mock_encode (s : JsString.t) : Outcome string :=
  Returned
    (String.concat ""
       ((fun c => if (c =? 32)%N then "%20" else String (ascii_of_N c) "") <$> s)).

(** The text that is one no-break space (U+00A0), and the letter e with an
    acute accent (U+00E9), as UTF-8. *)
Definition nbsp : string := String "194" (String "160" "").

Definition e_acute : string := String "195" (String "169" "").

(** The empty component state of the reviews page. *)
Definition emptyReviewsPage : MyReviewsPage.PageState :=
  {| MyReviewsPage.isDialogOpen := true; MyReviewsPage.currentReview := None;
     MyReviewsPage.searchQuery := ""; MyReviewsPage.selectedBook := None;
     MyReviewsPage.isSearching := false; MyReviewsPage.searchResults := [];
     MyReviewsPage.activeStep := 0 |}.

(** * Properties *)

(** ** Tactics for running computations *)

Ltac unfold_prims :=
  unfold world_after, outcome_of, bind, try_catch, try_finally, ret, throw, modify, gets,
    dispatch, localStorage_getItem, localStorage_setItem, localStorage_removeItem,
    set_location_href, console_error in *.

Ltac unfold_api :=
  unfold apiService.login, apiService.validateToken, apiService.logout,
    apiService.getUserProfile, apiService.updateUserProfile, apiService.changePassword,
    apiService.addToFavorites, apiService.removeFromFavorites,
    apiService.checkFavoriteStatus, apiService.submitRecommendationFeedback,
    apiService.setAuthToken, apiService.clearAuthToken,
    apiService.request, apiService.requestInterceptor,
    apiService.responseInterceptor_onRejected in *.

(** ** The reducer *)

Lemma authReducer_invariant s a :
  carries_user a = true ->
  (isAuthenticated s = true -> is_Some (user s)) ->
  isAuthenticated (authReducer s a) = true -> is_Some (user (authReducer s a)).
Proof.
  destruct a as [b|[u|] t| | |[u|]]; simpl; intros Ha Hs H;
    try discriminate; eauto.
Qed.

Lemma run_actions_invariant actions : forall s,
  Forall (fun a => carries_user a = true) actions ->
  (isAuthenticated s = true -> is_Some (user s)) ->
  isAuthenticated (run_actions s actions) = true ->
  is_Some (user (run_actions s actions)).
Proof.
  induction actions as [|a actions IH]; intros s Hall Hs; simpl.
  - exact Hs.
  - inversion Hall as [|? ? Ha Hrest]; subst.
    apply IH; [exact Hrest|]. apply authReducer_invariant; assumption.
Qed.

(** C5, as stated, fails in both halves.  Dispatched on the initial state,
    [SET_USER] makes [isAuthenticated] true and leaves [token] null.  And
    a [LOGIN_SUCCESS] whose payload user is [null] reaches
    [isAuthenticated=true] with a null user; the provider dispatches one
    on startup when the persisted user string is the JSON text [null],
    which is a non-empty string and parses without an error. *)
Lemma authReducer_null_token_and_null_user :
  (isAuthenticated initialState = false /\
   authReducer initialState (SET_USER (Some mockUser)) =
     {| user := Some mockUser; token := None; loading := false; isAuthenticated := true |}) /\
  run_actions initialState [LOGIN_SUCCESS None "mock-jwt-token"] =
    {| user := None; token := Some "mock-jwt-token";
       loading := false; isAuthenticated := true |} /\
  (let w' := world_after
               (AuthProvider.initializeAuth mock_parse (Ok2xx (mockValidation true)))
               (page_load (<["user" := "null"]> mockStorage)) in
   state w' = {| user := None; token := Some "mock-jwt-token";
                 loading := false; isAuthenticated := true |}).
Proof. vm_compute. repeat split. Qed.

(** C5, amended: a transition that makes [isAuthenticated] true is a
    [LOGIN_SUCCESS], which sets [loading=false], the user and the token of
    its payload in the same update, or a [SET_USER], which sets
    [loading=false] and the user of its payload and keeps the token the
    state had.  The user of the payload is stored as it comes, [null]
    included; from the initial state, the sequences of actions whose
    payloads all carry a user never reach [isAuthenticated=true] with a
    null user. *)
Theorem authReducer_authenticating_transitions :
  (forall s a,
     isAuthenticated s = false ->
     isAuthenticated (authReducer s a) = true ->
     loading (authReducer s a) = false /\
     ((exists u t, a = LOGIN_SUCCESS u t /\
                   user (authReducer s a) = u /\
                   token (authReducer s a) = Some t) \/
      (exists u, a = SET_USER u /\
                 user (authReducer s a) = u /\
                 token (authReducer s a) = token s))) /\
  (forall actions,
     Forall (fun a => carries_user a = true) actions ->
     isAuthenticated (run_actions initialState actions) = true ->
     is_Some (user (run_actions initialState actions))).
Proof.
  split.
  - intros s a Hs Ha. destruct a; simpl in *; try congruence.
    + split; [reflexivity|]. left. eauto.
    + split; [reflexivity|]. right. eauto.
  - intros actions Hall. apply run_actions_invariant; [exact Hall|]. simpl. discriminate.
Qed.

(** [updateProfile] dispatches [SET_USER] without looking at the session:
    called on a page that loaded with nothing persisted, a successful
    profile update leaves the store authenticated with a null token. *)
Example updateProfile_without_session :
  let w0 := world_after
              (AuthProvider.initializeAuth mock_parse (NetworkError "unused"))
              (page_load ∅) in
  let w' := world_after
              (AuthProvider.updateProfile mock_stringify
                 {| pu_name := Some "Test User"; pu_bio := None; pu_avatarUrl := None |}
                 (Ok2xx {| success := true; message := "updated"; data := Some mockUser |}))
              w0 in
  state w0 = loggedOutState /\
  state w' = {| user := Some mockUser; token := None;
                loading := false; isAuthenticated := true |}.
Proof. vm_compute. split; reflexivity. Qed.

(** A login on the initial state, and a login followed by a second
    [SET_LOADING]. *)
Lemma authReducer_authenticating_transitions_witness :
  (loading (authReducer initialState (LOGIN_SUCCESS (Some mockUser) "mock-jwt-token")) = false /\
   ((exists u t,
       LOGIN_SUCCESS (Some mockUser) "mock-jwt-token" = LOGIN_SUCCESS u t /\
       user (authReducer initialState (LOGIN_SUCCESS (Some mockUser) "mock-jwt-token")) = u /\
       token (authReducer initialState (LOGIN_SUCCESS (Some mockUser) "mock-jwt-token"))
         = Some t) \/
    (exists u,
       LOGIN_SUCCESS (Some mockUser) "mock-jwt-token" = SET_USER u /\
       user (authReducer initialState (LOGIN_SUCCESS (Some mockUser) "mock-jwt-token")) = u /\
       token (authReducer initialState (LOGIN_SUCCESS (Some mockUser) "mock-jwt-token"))
         = token initialState))) /\
  is_Some (user (run_actions initialState
                   [SET_LOADING true; LOGIN_SUCCESS (Some mockUser) "mock-jwt-token";
                    SET_LOADING true])).
Proof.
  split.
  - apply (proj1 authReducer_authenticating_transitions initialState
             (LOGIN_SUCCESS (Some mockUser) "mock-jwt-token")); reflexivity.
  - apply (proj2 authReducer_authenticating_transitions
             [SET_LOADING true; LOGIN_SUCCESS (Some mockUser) "mock-jwt-token";
              SET_LOADING true]).
    + repeat constructor.
    + reflexivity.
Defined.

(** ** Login *)

(** C1: a login whose backend request succeeds ends authenticated, with the
    user synthesized from the response ([userId], [name], [email], and the
    placeholders [reviewCount=0], [favoriteBooksCount=0],
    [emailVerified=true]); [localStorage] holds the response token under
    [token] and the serialized synthesized user under [user]; the default
    [Authorization] header of the API client is built from that token. *)
Theorem login_success_authenticates
    (JSON_stringify : User -> string) (now mail password : string)
    (response : JwtResponse) (w : World) :
  let m := AuthProvider.login JSON_stringify now mail password (Ok2xx response) in
  let w' := world_after m w in
  let u := AuthProvider.user_of_response response now in
  outcome_of m w = Returned tt /\
  isAuthenticated (state w') = true /\
  loading (state w') = false /\
  user (state w') = Some u /\
  token (state w') = Some (jwt_token response) /\
  (id u = userId response /\ name u = jwt_name response /\ email u = jwt_email response) /\
  (reviewCount u = 0 /\ favoriteBooksCount u = 0 /\ emailVerified u = true) /\
  localStorage w' !! "token" = Some (jwt_token response) /\
  localStorage w' !! "user" = Some (JSON_stringify u) /\
  defaults_common w' !! "Authorization" = Some ("Bearer " ++ jwt_token response).
Proof.
  intros m w' u. subst m w' u.
  unfold AuthProvider.login. unfold_api. unfold_prims. simpl.
  destruct (Js.truthy (localStorage w !! "token")); simpl.
  all: repeat split; try reflexivity.
  all: try (rewrite lookup_insert_ne by discriminate); apply lookup_insert_eq.
Qed.

(** The login of the test suite: the response [mockJwtResponse] leaves the
    store authenticated as "Test User" with the token persisted. *)
Example login_test_suite :
  let w' := world_after
              (AuthProvider.login mock_stringify "2024-06-01T10:00:00.000Z"
                 "test@example.com" "password" (Ok2xx mockJwtResponse))
              (world_after (AuthProvider.initializeAuth mock_parse (NetworkError "unused"))
                 (page_load ∅)) in
  isAuthenticated (state w') = true /\
  name <$> user (state w') = Some "Test User" /\
  localStorage w' !! "token" = Some "new-jwt-token" /\
  body <$> sent w' =
    [Some [("email", Js.Str "test@example.com"); ("password", Js.Str "password")]].
Proof. vm_compute. repeat split. Qed.

(** ** Logout *)

(** C3: whatever the logout network call answers, [logout] returns normally
    (it never re-throws), both persisted entries are gone, the default
    [Authorization] header is cleared, the store is unauthenticated with
    [loading=false], and a failure of the call is logged. *)
Theorem logout_always_clears (reply : Reply unit) (w : World) :
  let m := AuthProvider.logout reply in
  let w' := world_after m w in
  outcome_of m w = Returned tt /\
  localStorage w' !! "token" = None /\
  localStorage w' !! "user" = None /\
  defaults_common w' !! "Authorization" = None /\
  state w' = loggedOutState /\
  console w' =
    (console w ++ match rejection "/auth/logout" reply with
                  | Some e => [("Logout error:", e)]
                  | None => []
                  end)%list.
Proof.
  intros m w'. subst m w'.
  unfold AuthProvider.logout. unfold_api. unfold_prims. simpl.
  destruct (Js.truthy (localStorage w !! "token")); simpl.
  all: destruct reply as [[]|st msg|msg]; simpl.
  all: try (destruct (bool_decide (Some st = Some 401)); simpl).
  all: repeat split; try reflexivity.
  all: try (rewrite app_nil_r; reflexivity).
  all: try (rewrite lookup_delete_ne by discriminate); try apply lookup_delete_eq.
Qed.

(** ** The interceptors *)

Lemma append_cons (c : Ascii.ascii) (a b : string) :
  String c a ++ b = String c (a ++ b).
Proof. reflexivity. Qed.

Lemma prefix_spec (sub s : string) :
  String.prefix sub s = true <-> exists b, s = sub ++ b.
Proof.
  revert s. induction sub as [|c sub IH]; intros s.
  - split; [intros _; exists s; reflexivity | intros _; destruct s; reflexivity].
  - destruct s as [|d s]; simpl.
    + split; [discriminate | intros [b Hb]; discriminate].
    + destruct (Ascii.ascii_dec c d) as [->|Hne].
      * rewrite IH. split; intros [b Hb]; exists b; rewrite append_cons in *; congruence.
      * split; [discriminate | intros [b Hb]; rewrite append_cons in Hb; congruence].
Qed.

Lemma includes_empty (sub : string) :
  Js.includes "" sub = String.prefix sub "".
Proof. simpl. apply orb_false_r. Qed.

Lemma includes_cons (c : Ascii.ascii) (s sub : string) :
  Js.includes (String c s) sub = String.prefix sub (String c s) || Js.includes s sub.
Proof. reflexivity. Qed.

Lemma includes_spec (s sub : string) :
  Js.includes s sub = true <-> contains s sub.
Proof.
  unfold contains. induction s as [|c s IH].
  - rewrite includes_empty, prefix_spec. split.
    + intros [b Hb]. exists "", b. exact Hb.
    + intros [a [b Hab]]. destruct a.
      * exists b. exact Hab.
      * rewrite append_cons in Hab. discriminate.
  - rewrite includes_cons, orb_true_iff, prefix_spec, IH. split.
    + intros [[b Hb] | [a [b Hab]]].
      * exists "", b. exact Hb.
      * exists (String c a), b. rewrite append_cons. congruence.
    + intros [a [b Hab]]. destruct a as [|d a].
      * left. exists b. exact Hab.
      * right. exists a, b. rewrite append_cons in Hab. congruence.
Qed.

(** C4: the rejection handler of the response interceptor always rejects
    with the error it received.  For a 401 whose request URL contains
    [/auth/] or [/profile] it removes [token] and [user] from
    [localStorage] and sets the location to [/login]; for a 401 on any
    other URL, and for every other status, it leaves the world as it
    was. *)
Theorem responseInterceptor_401 (A : Type) (error : JsError) (w : World) :
  let m := @apiService.responseInterceptor_onRejected A error in
  let w' := world_after m w in
  let u := Js.or_else (config_url_of error) "" in
  outcome_of m w = Thrown error /\
  (response_status_of error = Some 401 ->
   contains u "/auth/" \/ contains u "/profile" ->
   localStorage w' !! "token" = None /\
   localStorage w' !! "user" = None /\
   location_href w' = "/login") /\
  (response_status_of error = Some 401 ->
   ~ (contains u "/auth/" \/ contains u "/profile") ->
   w' = w) /\
  (response_status_of error <> Some 401 -> w' = w).
Proof.
  intros m w' u. subst m w'.
  assert (Hsens : Js.includes u "/auth/" || Js.includes u "/profile" = true
                  <-> contains u "/auth/" \/ contains u "/profile").
  { rewrite orb_true_iff, !includes_spec. reflexivity. }
  unfold apiService.responseInterceptor_onRejected. unfold_prims. fold u.
  destruct (Js.includes u "/auth/" || Js.includes u "/profile");
    case_bool_decide as Hst; simpl.
  all: split; [reflexivity|].
  all: split; [|split]; try (intros; congruence).
  all: try (intros; destruct w; reflexivity).
  - intros _ _. split; [|split; [|reflexivity]].
    + rewrite lookup_delete_ne by discriminate. apply lookup_delete_eq.
    + apply lookup_delete_eq.
  - intros _ Hn. exfalso. apply Hn, Hsens. reflexivity.
  - intros _ Hc. apply Hsens in Hc. discriminate.
Qed.

(** A 401 on [/auth/profile] wipes the session; a 401 on
    [/books/1/favorite] does not. *)
Lemma responseInterceptor_401_witness :
  (let w' := world_after
               (@apiService.responseInterceptor_onRejected unit
                  (AxiosError (Some "/auth/profile") (Some 401) "Unauthorized"))
               (page_load mockStorage) in
   localStorage w' !! "token" = None /\
   localStorage w' !! "user" = None /\
   location_href w' = "/login") /\
  world_after
    (@apiService.responseInterceptor_onRejected unit
       (AxiosError (Some "/books/1/favorite") (Some 401) "Unauthorized"))
    (page_load mockStorage) = page_load mockStorage.
Proof.
  split.
  - apply (proj1 (proj2 (responseInterceptor_401 unit
             (AxiosError (Some "/auth/profile") (Some 401) "Unauthorized")
             (page_load mockStorage)))).
    + reflexivity.
    + left. exists "", "profile". reflexivity.
  - apply (proj1 (proj2 (proj2 (responseInterceptor_401 unit
             (AxiosError (Some "/books/1/favorite") (Some 401) "Unauthorized")
             (page_load mockStorage))))).
    + reflexivity.
    + intros [H|H]; apply includes_spec in H; vm_compute in H; discriminate.
Defined.

(** An API call answered with 401: the request to an auth-sensitive path
    wipes the persisted credentials and redirects; the call still throws. *)
Example getUserProfile_401 :
  let m := apiService.getUserProfile (HttpError 401 "Unauthorized") in
  let w' := world_after m (page_load mockStorage) in
  outcome_of m (page_load mockStorage)
    = Thrown (AxiosError (Some "/auth/profile") (Some 401) "Unauthorized") /\
  localStorage w' !! "token" = None /\
  localStorage w' !! "user" = None /\
  location_href w' = "/login".
Proof. vm_compute. repeat split. Qed.

(** ** The request interceptor *)

(** C7, as stated, fails: with no token persisted (the first login of a
    session) the request leaves without an [Authorization] header. *)
Lemma login_request_without_token_has_no_authorization :
  let w' := world_after
              (apiService.login
                 {| login_email := "test@example.com"; login_password := "password";
                    rememberMe := None |}
                 (Ok2xx mockJwtResponse))
              (page_load ∅) in
  (fun r => (url r, headers r !! "Authorization")) <$> sent w' = [("/auth/login", None)].
Proof. vm_compute. reflexivity. Qed.

(** C7, amended: every API call hands exactly one request to the network,
    with the method, URL, parameters and body the API method gave.  When
    [localStorage] holds a non-empty [token] at that moment, the request
    carries [Authorization: Bearer <that token>], whatever the default
    header of the client says; when it holds none, or an empty one, the
    interceptor adds nothing and the request carries the default
    [Authorization] header of the client, if there is one. *)
Theorem request_authorization_header {A : Type} (m : Method) (u : string)
    (ps : Js.object) (b : option Js.object) (reply : Reply A) (w : World) :
  let w' := world_after (apiService.request m u ps b reply) w in
  exists req,
    sent w' = (sent w ++ [req])%list /\
    (method req = m /\ url req = u /\ params req = ps /\ body req = b) /\
    (forall t, localStorage w !! "token" = Some t -> t <> "" ->
               headers req !! "Authorization" = Some ("Bearer " ++ t)) /\
    (Js.truthy (localStorage w !! "token") = false ->
     headers req !! "Authorization" = defaults_common w !! "Authorization").
Proof.
  intros w'. subst w'. unfold_api. unfold_prims. simpl.
  destruct (localStorage w !! "token") as [t|] eqn:Htok; simpl.
  - destruct (String.eqb_spec t "") as [->|Hne]; simpl.
    + eexists. split; [|split; [|split]].
      * destruct reply as [d|st msg|msg]; simpl; try reflexivity.
        all: repeat (match goal with |- context [if ?c then _ else _] => destruct c end; simpl);
          reflexivity.
      * repeat split.
      * intros t' Ht' Hne. congruence.
      * intros _. simpl. rewrite lookup_insert_ne by discriminate. reflexivity.
    + eexists. split; [|split; [|split]].
      * destruct reply as [d|st msg|msg]; simpl; try reflexivity.
        all: repeat (match goal with |- context [if ?c then _ else _] => destruct c end; simpl);
          reflexivity.
      * repeat split.
      * intros t' Ht' _. injection Ht' as <-. simpl. apply lookup_insert_eq.
      * discriminate.
  - eexists. split; [|split; [|split]].
    * destruct reply as [d|st msg|msg]; simpl; try reflexivity.
      all: repeat (match goal with |- context [if ?c then _ else _] => destruct c end; simpl);
        reflexivity.
    * repeat split.
    * intros t' Ht'. discriminate.
    * intros _. simpl. rewrite lookup_insert_ne by discriminate. reflexivity.
Qed.

(** A token rotated in [localStorage] after [setAuthToken] is the one the
    next request carries. *)
Lemma request_authorization_header_witness :
  exists req,
    sent (world_after (apiService.validateToken (Ok2xx (mockValidation true))) rotatedWorld)
      = (sent rotatedWorld ++ [req])%list /\
    headers req !! "Authorization" = Some "Bearer rotated-token".
Proof.
  destruct (request_authorization_header GET "/auth/validate" [] None
              (Ok2xx (mockValidation true)) rotatedWorld) as (req & Hs & _ & Ht & _).
  exists req. split.
  - exact Hs.
  - apply (Ht "rotated-token"); [reflexivity | discriminate].
Defined.

(** ** Startup *)


(** C2, as stated, fails: when only the token is persisted, startup ends
    unauthenticated with [loading=false] but the token stays in
    [localStorage]; nothing is cleared and no request is made. *)
Lemma initializeAuth_without_user_keeps_token :
  let m := AuthProvider.initializeAuth mock_parse (Ok2xx (mockValidation true)) in
  let w' := world_after m (page_load {["token" := "mock-jwt-token"]}) in
  localStorage w' !! "token" = Some "mock-jwt-token" /\
  localStorage w' !! "user" = None /\
  state w' = loggedOutState /\
  sent w' = [].
Proof. vm_compute. repeat split. Qed.

(** C2, amended: startup never throws.  When [token] and [user] are both
    persisted and non-empty, the validate-token operation is called with
    the persisted token; if it answers valid and the persisted user string
    parses, the store becomes authenticated with the parsed persisted user
    (the value the string parses to, [null] included) and the persisted
    token, storage is unchanged and the default
    [Authorization] header is set; if it answers invalid, fails, or the
    user string does not parse, both entries are removed and the store
    becomes unauthenticated with [loading=false].  When either entry is
    absent or empty, storage is left as it is, no request is made and the
    store becomes unauthenticated with [loading=false]. *)
Theorem initializeAuth_startup (JSON_parse : string -> option (option User))
    (storage : gmap string string) (reply : Reply Validation) :
  let m := AuthProvider.initializeAuth JSON_parse reply in
  let w' := world_after m (page_load storage) in
  outcome_of m (page_load storage) = Returned tt /\
  (forall t s,
     storage !! "token" = Some t -> t <> "" ->
     storage !! "user" = Some s -> s <> "" ->
     (exists req, sent w' = [req] /\ method req = GET /\ url req = "/auth/validate" /\
                  headers req !! "Authorization" = Some ("Bearer " ++ t)) /\
     (forall v u, reply = Ok2xx v -> valid v = true -> JSON_parse s = Some u ->
        state w' = {| user := u; token := Some t;
                      loading := false; isAuthenticated := true |} /\
        localStorage w' = storage /\
        defaults_common w' !! "Authorization" = Some ("Bearer " ++ t)) /\
     ((forall v, reply = Ok2xx v -> valid v = false \/ JSON_parse s = None) ->
        localStorage w' !! "token" = None /\
        localStorage w' !! "user" = None /\
        state w' = loggedOutState)) /\
  (Js.truthy (storage !! "token") && Js.truthy (storage !! "user") = false ->
     localStorage w' = storage /\
     state w' = loggedOutState /\
     sent w' = []).
Proof.
  intros m w'. subst m w'.
  assert (Hdel : forall (m : gmap string string),
            delete "user" (delete "token" m) !! "token" = None /\
            delete "user" (delete "token" m) !! "user" = None).
  { intros m. split.
    - rewrite lookup_delete_ne by discriminate. apply lookup_delete_eq.
    - apply lookup_delete_eq. }
  assert (Htruthy : forall x, x <> "" -> Js.truthy (Some x) = true).
  { intros x Hx. simpl. destruct (String.eqb_spec x ""); simpl; congruence. }
  destruct (Js.truthy (storage !! "token") && Js.truthy (storage !! "user")) eqn:Hboth.
  2: { unfold AuthProvider.initializeAuth. unfold_prims. simpl. rewrite Hboth. simpl.
       split; [reflexivity|]. split; [|intros _; repeat split].
       intros t s Ht Hnt Hs Hns. rewrite Ht, Hs, !Htruthy in Hboth by assumption.
       discriminate. }
  unfold AuthProvider.initializeAuth, AuthProvider.parse. unfold_api. unfold_prims.
  simpl. rewrite Hboth. simpl.
  apply andb_true_iff in Hboth as [Htok _]. rewrite Htok. simpl.
  destruct reply as [v|st msg|msg]; simpl.
  - destruct (valid v) eqn:Hv; simpl;
      [destruct (JSON_parse (default "" (storage !! "user"))) as [u|] eqn:Hp; simpl|].
    all: split; [reflexivity|]; split; [|discriminate].
    all: intros t s Ht _ Hs _; rewrite ?Ht, ?Hs in *; simpl in *.
    all: split; [eexists; repeat split; apply lookup_insert_eq|].
    all: split.
    all: try (intros v' u' Hr Hv' Hp'; injection Hr as <-; congruence).
    + intros v' u' Hr Hv' Hp'. injection Hr as <-.
      rewrite Hp in Hp'. injection Hp' as <-. repeat split.
    + intros Hf. destruct (Hf v eq_refl); congruence.
    + intros _. destruct (Hdel storage). repeat split; assumption.
    + intros _. destruct (Hdel storage). repeat split; assumption.
  - case_bool_decide; simpl.
    all: split; [reflexivity|]; split; [|discriminate].
    all: intros t s Ht _ Hs _; rewrite ?Ht, ?Hs in *; simpl in *.
    all: split; [eexists; repeat split; apply lookup_insert_eq|].
    all: split; [intros v' u' Hr; discriminate|].
    all: intros _; split; [|split; [|reflexivity]].
    all: try (rewrite lookup_delete_ne by discriminate); apply lookup_delete_eq.
  - split; [reflexivity|]; split; [|discriminate].
    intros t s Ht _ Hs _; rewrite ?Ht, ?Hs in *; simpl in *.
    split; [eexists; repeat split; apply lookup_insert_eq|].
    split; [intros v' u' Hr; discriminate|].
    intros _. destruct (Hdel storage). repeat split; assumption.
Qed.

(** The three startups of the test suite: valid token, invalid token,
    nothing persisted. *)
Lemma initializeAuth_startup_witness :
  (let w' := world_after
               (AuthProvider.initializeAuth mock_parse (Ok2xx (mockValidation true)))
               (page_load mockStorage) in
   state w' = {| user := Some mockUser; token := Some "mock-jwt-token";
                 loading := false; isAuthenticated := true |} /\
   localStorage w' = mockStorage /\
   defaults_common w' !! "Authorization" = Some "Bearer mock-jwt-token") /\
  (let w' := world_after
               (AuthProvider.initializeAuth mock_parse (Ok2xx (mockValidation false)))
               (page_load mockStorage) in
   localStorage w' !! "token" = None /\
   localStorage w' !! "user" = None /\
   state w' = loggedOutState) /\
  (let w' := world_after
               (AuthProvider.initializeAuth mock_parse (Ok2xx (mockValidation true)))
               (page_load ∅) in
   localStorage w' = ∅ /\ state w' = loggedOutState /\ sent w' = []).
Proof.
  split; [|split].
  - destruct (initializeAuth_startup mock_parse mockStorage (Ok2xx (mockValidation true)))
      as (_ & Hboth & _).
    destruct (Hboth "mock-jwt-token" (mock_stringify mockUser)) as (_ & Hvalid & _);
      [reflexivity | discriminate | reflexivity | discriminate |].
    apply (Hvalid (mockValidation true) (Some mockUser)); reflexivity.
  - destruct (initializeAuth_startup mock_parse mockStorage (Ok2xx (mockValidation false)))
      as (_ & Hboth & _).
    destruct (Hboth "mock-jwt-token" (mock_stringify mockUser)) as (_ & _ & Hfail);
      [reflexivity | discriminate | reflexivity | discriminate |].
    apply Hfail. intros v Hv. injection Hv as <-. left. reflexivity.
  - destruct (initializeAuth_startup mock_parse ∅ (Ok2xx (mockValidation true)))
      as (_ & _ & Habsent).
    apply Habsent. reflexivity.
Defined.

(** ** Change of password *)



(** A password change as it reaches the network. *)
Example changePassword_sent_body :
  (fun r => (method r, url r, body r)) <$>
    sent (world_after
            (AuthProvider.changePassword
               {| currentPassword := "old-secret"; newPassword := "new-secret";
                  confirmPassword := "new-secret" |}
               (Ok2xx mockOk))
            (page_load mockStorage))
  = [(PUT, "/auth/change-password",
      Some [("currentPassword", Js.Str "old-secret"); ("newPassword", Js.Str "new-secret")])].
Proof. vm_compute. reflexivity. Qed.

(** ** Recommendation feedback *)

(** One click: one request, whatever the network answers, and the
    handler returns normally. *)
Lemma click_sends_one_request (t : FeedbackType) (book : Book)
    (reply : Reply (ApiResponse unit)) (w : World) :
  exists req,
    outcome_of (RecommendationDashboard.click t book reply) w = Returned tt /\
    sent (world_after (RecommendationDashboard.click t book reply) w) = (sent w ++ [req])%list /\
    method req = POST /\
    url req = "/books/recommendations/" ++ Js.of_number (book_id book) ++ "/feedback" /\
    params req = [] /\
    body req = Some [("type", Js.Str match t with
                                      | like => "like"
                                      | dislike => "dislike"
                                      end);
                     ("reason", Js.Undefined)].
Proof.
  unfold RecommendationDashboard.click, RecommendationDashboard.click_like,
    RecommendationDashboard.click_dislike, RecommendationDashboard.handleLike,
    RecommendationDashboard.handleDislike, RecommendationDashboard.handleFeedback,
    RecommendationDashboard.feedbackMutation_mutationFn, queryClient.mutate.
  destruct t; unfold_api; unfold_prims; simpl.
  all: destruct (Js.truthy (localStorage w !! "token")); simpl.
  all: destruct reply as [r|st msg|msg]; simpl.
  all: try case_bool_decide; simpl.
  all: try (match goal with |- context [if ?c then _ else _] => destruct c end; simpl).
  all: eexists; repeat split.
Qed.

(** C8, as stated, fails: the feedback endpoint is not called with an
    object that holds [type] and [recommendationId].  A like click on the
    card of book 1 sends one POST whose body literal has the properties
    [type] and [reason], of which only [type] reaches the wire; the
    recommendation id is no property of the body, it is the number in the
    path of the URL. *)
Lemma feedback_body_has_no_recommendationId :
  let w' := world_after (RecommendationDashboard.click like mockBook (Ok2xx mockOk))
              (page_load mockStorage) in
  (fun r => (method r, url r, Js.keys <$> body r, Js.wire <$> body r)) <$> sent w' =
    [(POST, "/books/recommendations/1/feedback", Some ["type"; "reason"],
      Some [("type", Js.Str "like")])] /\
  (fun r => Js.wire <$> body r) <$> sent w' <>
    [Some [("type", Js.Str "like"); ("recommendationId", Js.Num 1)]].
Proof. vm_compute. split; [reflexivity|discriminate]. Qed.

(** C8, amended: each click on the like or dislike button of the card of a
    book sends exactly one [POST /books/recommendations/<book id>/feedback],
    without parameters, whose body on the wire is exactly the one property
    [type], with the text [like] for a like click and [dislike] for a
    dislike click; the book id is the recommendation id in the path and
    appears nowhere in the body.  The handler returns normally whatever
    the network answers.  A sequence of clicks on the same card yields one
    such request per click, in order: repeated submissions are
    independent events. *)
Theorem feedback_click_sends_exactly_type_and_id (book : Book)
    (events : list (FeedbackType * Reply (ApiResponse unit))) (w : World) :
  let m := RecommendationDashboard.clicks book events in
  outcome_of m w = Returned tt /\
  exists reqs,
    sent (world_after m w) = (sent w ++ reqs)%list /\
    Forall2 (fun ev req =>
               method req = POST /\
               url req = "/books/recommendations/" ++ Js.of_number (book_id book) ++ "/feedback" /\
               params req = [] /\
               Js.keys <$> body req = Some ["type"; "reason"] /\
               Js.wire <$> body req =
                 Some [("type", Js.Str match fst ev with
                                       | like => "like"
                                       | dislike => "dislike"
                                       end)])
            events reqs.
Proof.
  revert w. induction events as [|[t reply] events IH]; intros w; simpl.
  - split; [reflexivity|]. exists []. rewrite app_nil_r. split; [reflexivity|constructor].
  - destruct (click_sends_one_request t book reply w)
      as (req & Hout & Hsent & Hm & Hu & Hp & Hb).
    unfold world_after, outcome_of, bind in *.
    destruct (RecommendationDashboard.click t book reply w) as [o w1]. simpl in *. subst o.
    destruct (IH w1) as [Hout' (reqs & Hsent' & Hall)].
    split; [exact Hout'|].
    exists (req :: reqs). split.
    + rewrite Hsent', Hsent, <- app_assoc. reflexivity.
    + constructor; [|exact Hall]. rewrite Hb. destruct t; repeat split; assumption.
Qed.

Example feedback_test_suite :
  let w' := world_after
              (RecommendationDashboard.clicks mockBook
                 [(like, Ok2xx mockOk); (dislike, Ok2xx mockOk); (like, NetworkError "offline")])
              (page_load mockStorage) in
  (fun r => (url r, Js.wire <$> body r)) <$> sent w' =
    [("/books/recommendations/1/feedback", Some [("type", Js.Str "like")]);
     ("/books/recommendations/1/feedback", Some [("type", Js.Str "dislike")]);
     ("/books/recommendations/1/feedback", Some [("type", Js.Str "like")])].
Proof. vm_compute. reflexivity. Qed.

(** ** The AI tab *)

(** C9, as stated, fails: with [aiAvailable:false] and an empty list the AI
    tab shows the not-available alert and, below it, the empty-list alert
    of the tab; with [aiAvailable:true] it shows the empty-list alert
    alone. *)
Lemma ai_unavailable_also_renders_empty_list_alert :
  render (aiTabView false)
    = [HeaderWithTabs; AINotAvailableAlert; EmptyListAlert aiEmptyText] /\
  render (aiTabView true)
    = [HeaderWithTabs; EmptyListAlert aiEmptyText].
Proof. split; reflexivity. Qed.

(** The list area never is the not-available alert. *)
Lemma listArea_not_alert (v : View) : listArea v <> AINotAvailableAlert.
Proof.
  unfold listArea.
  repeat (match goal with |- context [if ?c then _ else _] => destruct c end);
    discriminate.
Qed.

(** C9, amended: for an authenticated user with no component-level error,
    on the AI tab with an answer of the AI query, the view is the header
    (when shown), the not-available alert exactly when the answer reports
    [aiAvailable:false], and then the list area, which is computed without
    looking at [aiAvailable]: for an empty list that is neither loading
    nor failed it is the empty-list alert of the AI tab.  The two
    conditions differ by the presence of the not-available alert. *)
Theorem ai_unavailable_adds_alert (v : View) (d : AIRecommendationResponse) :
  authenticated v = true ->
  Js.truthy (componentError v) = false ->
  tabValue v = 1 ->
  aiRecommendationData v = Some d ->
  render v =
    ((if showHeader v then [HeaderWithTabs] else [])
     ++ (if aiAvailable d then [] else [AINotAvailableAlert])
     ++ [listArea v])%list /\
  (AINotAvailableAlert ∈ render v <-> aiAvailable d = false) /\
  (aiIsLoading v = false -> aiError v = None -> recommendations (ai_base d) = [] ->
   listArea v = EmptyListAlert aiEmptyText).
Proof.
  intros Hauth Herr Htab Hdata.
  assert (Hrender : render v =
    ((if showHeader v then [HeaderWithTabs] else [])
     ++ (if aiAvailable d then [] else [AINotAvailableAlert])
     ++ [listArea v])%list).
  { unfold render, tabContent, aiReportedUnavailable.
    rewrite Herr, Hauth, Htab, Hdata. simpl.
    destruct (aiAvailable d); reflexivity. }
  split; [exact Hrender|]. split.
  - rewrite Hrender. pose proof (listArea_not_alert v) as Hne.
    destruct (showHeader v), (aiAvailable d); simpl.
    all: rewrite ?elem_of_cons, ?elem_of_nil.
    all: split; [intros H | intros H; try discriminate; auto].
    all: try reflexivity.
    all: repeat (destruct H as [H|H]); try discriminate; try (symmetry in H; contradiction);
      try contradiction.
  - intros Hl He Hr. unfold listArea, getCurrentLoading, getCurrentError,
      getCurrentRecommendations.
    rewrite Htab, Hdata, Hl, He. simpl. rewrite Hr. reflexivity.
Qed.

(** The AI tab with [aiAvailable:false] and an empty list. *)
Lemma ai_unavailable_adds_alert_witness :
  render (aiTabView false) =
    [HeaderWithTabs; AINotAvailableAlert; listArea (aiTabView false)] /\
  AINotAvailableAlert ∈ render (aiTabView false) /\
  listArea (aiTabView false) = EmptyListAlert aiEmptyText.
Proof.
  destruct (ai_unavailable_adds_alert (aiTabView false)
              {| ai_base := emptyResponse; aiAvailable := false |}
              eq_refl eq_refl eq_refl eq_refl) as (Hr & Hin & Hl).
  split; [exact Hr|]. split.
  - apply Hin. reflexivity.
  - apply Hl; reflexivity.
Defined.

(** ** Favorites *)

(** C6, as stated, fails for book id 0: the toggle calls the backend and
    succeeds, but the favorite-status query of that book is disabled
    ([!!bookId] is false), so the next read does not fetch and shows no
    status. *)
Lemma favoriteQuery_disabled_for_book_zero :
  let w1 := world_after (handleFavoriteToggle 0 (Ok2xx mockOk)) signedInWorld in
  let q := favoriteQuery 0 1000 (Ok2xx {| favorited := true; fc_bookId := 0 |}) in
  (fun r => (method r, url r)) <$> sent w1
    = [(GET, "/auth/validate"); (POST, "/books/0/favorite")] /\
  outcome_of q w1
    = Returned {| result_data := None; result_error := None; fetched := false |} /\
  sent (world_after q w1) = sent w1.
Proof. vm_compute. repeat split. Qed.

(** The scenario of the specification: book 1 reported not favorited; after
    a successful toggle the next read of the key, still inside the stale
    window, goes to the backend and shows the new status. *)
Example favorite_test_suite :
  let q now fav := favoriteQuery 1 now (Ok2xx {| favorited := fav; fc_bookId := 1 |}) in
  let w1 := world_after (q 1000 false) signedInWorld in
  let w2 := world_after (handleFavoriteToggle 1 (Ok2xx mockOk)) w1 in
  (* without the mutation the cached status is served *)
  outcome_of (q 2000 true) w1
    = Returned {| result_data := Some (FavoriteStatus false 1); result_error := None;
                  fetched := false |} /\
  (* after it, the same read goes to the backend *)
  outcome_of (q 2000 true) w2
    = Returned {| result_data := Some (FavoriteStatus true 1); result_error := None;
                  fetched := true |} /\
  (fun r => (method r, url r)) <$> sent (world_after (q 2000 true) w2)
    = [(GET, "/auth/validate"); (GET, "/books/1/favorite");
       (POST, "/books/1/favorite"); (GET, "/books/1/favorite")].
Proof. vm_compute. repeat split. Qed.

(** The world a successful favorite mutation leaves. *)
Lemma mutation_success_world (add : bool) (bookId : Z) (r : ApiResponse unit) (w : World) :
  exists req,
    method req = (if add then POST else DELETE) /\
    url req = "/books/" ++ Js.of_number bookId ++ "/favorite" /\
    favoriteMutation add bookId (Ok2xx r) w =
      (Returned tt,
       with_queries
         (fun q =>
            map_imap (fun k e => Some (if bool_decide (userFavoritesKey `prefix_of` k)
                                       then invalidate e else e))
              (map_imap (fun k e => Some (if bool_decide (favoriteKey bookId `prefix_of` k)
                                          then invalidate e else e)) q))
         (with_sent (fun l => (l ++ [req])%list) w)).
Proof.
  unfold favoriteMutation, addToFavoritesMutation, removeFromFavoritesMutation,
    FavoriteButton.onSuccess, mutate, invalidateQueries.
  destruct add; unfold_api; unfold_prims; simpl.
  all: destruct (Js.truthy (localStorage w !! "token")); simpl.
  all: eexists; (split; [|split]); [| |reflexivity]; reflexivity.
Qed.

(** C6, amended: for every book id, a successful [addToFavorites] or
    [removeFromFavorites] mutation sends its one request and marks as
    invalidated exactly the cached entries whose key starts with
    [['bookFavorite', bookId]] or [['userFavorites']]; it fetches nothing
    itself.  The next read of the favorite-status query of that book, at
    any time, calls the backend and returns and caches its answer provided
    the query is enabled, that is the book id is not 0 and the user is
    authenticated; otherwise the read fetches nothing and changes
    nothing. *)
Theorem favorite_mutation_invalidates (add : bool) (bookId : Z)
    (r : ApiResponse unit) (w : World) :
  let w1 := world_after (favoriteMutation add bookId (Ok2xx r)) w in
  (forall k, queries w1 !! k =
             (fun e => if touched bookId k then invalidate e else e) <$> queries w !! k) /\
  (exists req, sent w1 = (sent w ++ [req])%list /\
               method req = (if add then POST else DELETE) /\
               url req = "/books/" ++ Js.of_number bookId ++ "/favorite") /\
  (forall now check,
     let q := favoriteQuery bookId now (Ok2xx check) in
     let w2 := world_after q w1 in
     (bookId <> 0 -> isAuthenticated (state w) = true ->
      outcome_of q w1 =
        Returned {| result_data := Some (FavoriteStatus (favorited check) (fc_bookId check));
                    result_error := None; fetched := true |} /\
      (exists req, sent w2 = (sent w1 ++ [req])%list /\ method req = GET /\
                   url req = "/books/" ++ Js.of_number bookId ++ "/favorite") /\
      queries w2 !! favoriteKey bookId =
        Some {| entry_data := FavoriteStatus (favorited check) (fc_bookId check);
                dataUpdatedAt := now; isInvalidated := false |}) /\
     (bookId = 0 \/ isAuthenticated (state w) = false ->
      fetched <$> (match outcome_of q w1 with Returned x => Some x | Thrown _ => None end)
        = Some false /\
      w2 = w1)).
Proof.
  intros w1. subst w1.
  destruct (mutation_success_world add bookId r w) as (req & Hm & Hu & Hrun).
  unfold world_after, outcome_of. rewrite Hrun. simpl.
  assert (Hlook : forall k,
            map_imap (fun k e => Some (if bool_decide (userFavoritesKey `prefix_of` k)
                                       then invalidate e else e))
              (map_imap (fun k e => Some (if bool_decide (favoriteKey bookId `prefix_of` k)
                                          then invalidate e else e)) (queries w)) !! k
            = (fun e => if touched bookId k then invalidate e else e) <$> queries w !! k).
  { intros k. rewrite !map_lookup_imap. unfold touched.
    destruct (queries w !! k) as [e|]; simpl; [|reflexivity].
    do 2 case_bool_decide; reflexivity. }
  split; [exact Hlook|]. split; [exists req; auto|].
  intros now check. split.
  - intros Hb Hauth.
    unfold favoriteQuery, FavoriteButton.enabled, query. unfold_api. unfold_prims. simpl.
    rewrite Hauth. destruct (Z.eqb_spec bookId 0) as [|_]; [contradiction|]. simpl.
    rewrite Hlook. unfold touched.
    rewrite (bool_decide_eq_true_2 (favoriteKey bookId `prefix_of` favoriteKey bookId))
      by reflexivity. simpl.
    destruct (queries w !! favoriteKey bookId) as [e|]; simpl.
    all: unfold is_fresh; simpl.
    all: destruct (Js.truthy (localStorage w !! "token")); simpl.
    all: split; [reflexivity|]; split; [eexists; repeat split|apply lookup_insert_eq].
  - intros Hoff.
    unfold favoriteQuery, FavoriteButton.enabled, query. unfold_api. unfold_prims. simpl.
    assert (Hen : negb (bookId =? 0) && isAuthenticated (state w) = false).
    { destruct Hoff as [-> | ->]; [reflexivity|apply andb_false_r]. }
    rewrite Hen. simpl. split; reflexivity.
Qed.

(** Book 1 of the test suite, cached as not favorited: after the mutation
    the next read returns the status the backend now reports. *)
Lemma favorite_mutation_invalidates_witness :
  let w0 := world_after
              (favoriteQuery 1 1000 (Ok2xx {| favorited := false; fc_bookId := 1 |}))
              signedInWorld in
  let w1 := world_after (favoriteMutation true 1 (Ok2xx mockOk)) w0 in
  outcome_of (favoriteQuery 1 2000 (Ok2xx {| favorited := true; fc_bookId := 1 |})) w1
    = Returned {| result_data := Some (FavoriteStatus true 1); result_error := None;
                  fetched := true |}.
Proof.
  intros w0 w1.
  destruct (favorite_mutation_invalidates true 1 mockOk w0) as (_ & _ & Hread).
  destruct (Hread 2000 {| favorited := true; fc_bookId := 1 |}) as [Hon _].
  destruct Hon as (Hout & _); [discriminate | reflexivity | exact Hout].
Defined.

(** * Further properties *)

(** ** The API client *)

Lemma or_else_Some_empty (u : string) : Js.or_else (Some u) "" = u.
Proof. simpl. destruct (String.eqb_spec u ""); congruence. Qed.

(** What one API call does, in one equation. *)
Lemma request_run {A : Type} (m : Method) (u : string) (ps : Js.object)
    (b : option Js.object) (reply : Reply A) (w : World) :
  apiService.request m u ps b reply w =
    let w1 := with_sent (fun l => (l ++ [outgoing m u ps b w])%list) w in
    match reply with
    | Ok2xx d => (Returned d, w1)
    | HttpError st msg =>
        (Thrown (AxiosError (Some u) (Some st) msg),
         if bool_decide (st = 401) && auth_sensitive u then forced_logout w1 else w1)
    | NetworkError msg => (Thrown (AxiosError (Some u) None msg), w1)
    end.
Proof.
  unfold apiService.request, apiService.requestInterceptor,
    apiService.responseInterceptor_onRejected, outgoing, auth_sensitive, forced_logout.
  unfold_prims. simpl.
  destruct (Js.truthy (localStorage w !! "token")); simpl.
  all: destruct reply as [d|st msg|msg]; simpl; try reflexivity.
  all: assert (Hu : (if (u =? "")%string then "" else u) = u)
         by (destruct (String.eqb_spec u ""); congruence).
  all: rewrite Hu; clear Hu.
  all: destruct (decide (st = 401)) as [->|Hne].
  all: try (rewrite (bool_decide_eq_true_2 (Some 401 = Some 401)),
              (bool_decide_eq_true_2 (401 = 401)) by reflexivity; simpl;
            destruct (Js.includes u "/auth/" || Js.includes u "/profile"); reflexivity).
  all: rewrite (bool_decide_eq_false_2 (Some st = Some 401)),
         (bool_decide_eq_false_2 (st = 401)) by congruence; reflexivity.
Qed.

Lemma outgoing_fields (m : Method) (u : string) (ps : Js.object) (b : option Js.object)
    (w : World) :
  method (outgoing m u ps b w) = m /\ url (outgoing m u ps b w) = u /\
  params (outgoing m u ps b w) = ps /\ body (outgoing m u ps b w) = b.
Proof. unfold outgoing. destruct (Js.truthy _); repeat split. Qed.

Lemma url_outgoing (m : Method) (u : string) (ps : Js.object) (b : option Js.object)
    (w : World) : url (outgoing m u ps b w) = u.
Proof. apply outgoing_fields. Qed.

(** X1: every call of the API client ([request], which each method of
    [ApiService] is an instance of) hands exactly one request to the
    network; it returns the body of a 2xx reply and throws the rejection
    otherwise; it never changes the authentication state, the default
    headers, the console or the query cache; and it touches the persisted
    session and the location only on a 401 for an auth-sensitive URL, where
    it removes [token] and [user] and goes to [/login]. *)
Theorem api_call_frame {A : Type} (m : Method) (u : string) (ps : Js.object)
    (b : option Js.object) (reply : Reply A) (w : World) :
  let call := apiService.request m u ps b reply in
  let w' := world_after call w in
  outcome_of call w =
    match reply with
    | Ok2xx d => Returned d
    | _ => Thrown (default (Error "") (rejection u reply))
    end /\
  length (sent w') = S (length (sent w)) /\
  state w' = state w /\
  defaults_common w' = defaults_common w /\
  console w' = console w /\
  queries w' = queries w /\
  localStorage w' =
    (if is_401 reply && auth_sensitive u
     then delete "user" (delete "token" (localStorage w)) else localStorage w) /\
  location_href w' =
    (if is_401 reply && auth_sensitive u then "/login" else location_href w).
Proof.
  intros call w'. subst call w'. unfold world_after, outcome_of.
  rewrite request_run. simpl.
  destruct reply as [d|st msg|msg]; simpl.
  all: try destruct (bool_decide (st = 401) && auth_sensitive u); simpl.
  all: rewrite ?length_app; simpl.
  all: repeat split; lia.
Qed.

(** *** Which URLs are auth-sensitive *)

Lemma has_char_app (c : Ascii.ascii) (a b : string) :
  has_char c (a ++ b) = has_char c a || has_char c b.
Proof.
  induction a as [|d a IH]; [reflexivity|].
  rewrite append_cons. simpl. rewrite IH. apply orb_assoc.
Qed.

Lemma includes_has_char (c : Ascii.ascii) (s sub : string) :
  Js.includes s sub = true -> has_char c sub = true -> has_char c s = true.
Proof.
  intros Hin Hc. apply includes_spec in Hin as (a & b & ->).
  rewrite !has_char_app, Hc. apply orb_true_iff. right. reflexivity.
Qed.

Lemma pretty_N_char_digit (x : N) : is_digit (pretty_N_char x) = true.
Proof. unfold pretty_N_char. repeat case_match; reflexivity. Qed.

Lemma pretty_N_go_has_char (c : Ascii.ascii) (x : N) (s : string) :
  has_char c (pretty_N_go x s) = true -> has_char c s = true \/ is_digit c = true.
Proof.
  revert s. induction (N.lt_wf_0 x) as [x _ IH]; intros s.
  destruct (decide (x = 0)%N) as [->|Hx].
  - rewrite pretty_N_go_0. auto.
  - rewrite pretty_N_go_step by lia. intros H.
    apply IH in H; [|apply N.div_lt; lia].
    destruct H as [H|H]; [|auto]. simpl in H.
    apply orb_true_iff in H as [H|H]; [|auto].
    apply bool_decide_eq_true in H as ->. right. apply pretty_N_char_digit.
Qed.

Lemma of_number_has_char (c : Ascii.ascii) (n : Z) :
  has_char c (Js.of_number n) = true -> is_digit c = true \/ c = "-"%char.
Proof.
  unfold Js.of_number, pretty, pretty_Z.
  assert (HN : forall p : positive, has_char c (pretty p) = true -> is_digit c = true).
  { intros p. unfold pretty, pretty_positive, pretty, pretty_N.
    destruct (decide (N.pos p = 0%N)); [discriminate|].
    intros H. apply pretty_N_go_has_char in H as [H|H]; [discriminate|exact H]. }
  destruct n as [|p|p].
  - simpl. rewrite orb_false_r. intros H. apply bool_decide_eq_true in H as ->.
    left. reflexivity.
  - intros H. left. exact (HN p H).
  - change (has_char c (String "-" (pretty p)) = true -> is_digit c = true \/ c = "-"%char).
    simpl. intros H. apply orb_true_iff in H as [H|H].
    + right. apply bool_decide_eq_true in H. exact H.
    + left. exact (HN p H).
Qed.

(** A URL made of fixed text around one number is not auth-sensitive when
    the fixed text has neither an [h] nor a [p]. *)
Lemma numbered_url_not_auth_sensitive (a b : string) (n : Z) :
  has_char "h" a || has_char "h" b = false ->
  has_char "p" a || has_char "p" b = false ->
  auth_sensitive (a ++ Js.of_number n ++ b) = false.
Proof.
  intros Hh Hp. apply orb_false_iff in Hh as [Hha Hhb]. apply orb_false_iff in Hp as [Hpa Hpb].
  unfold auth_sensitive. apply orb_false_iff. split.
  - destruct (Js.includes _ "/auth/") eqn:Hin; [|reflexivity].
    apply (includes_has_char "h") in Hin; [|reflexivity].
    rewrite !has_char_app, Hha, Hhb, orb_false_r in Hin. simpl in Hin.
    apply of_number_has_char in Hin as [H|H]; discriminate.
  - destruct (Js.includes _ "/profile") eqn:Hin; [|reflexivity].
    apply (includes_has_char "p") in Hin; [|reflexivity].
    rewrite !has_char_app, Hpa, Hpb, orb_false_r in Hin. simpl in Hin.
    apply of_number_has_char in Hin as [H|H]; discriminate.
Qed.

Lemma append_empty_r (s : string) : s ++ "" = s.
Proof. induction s as [|c s IH]; [reflexivity|]. rewrite append_cons, IH. reflexivity. Qed.

Lemma numbered_url_end_not_auth_sensitive (a : string) (n : Z) :
  has_char "h" a = false -> has_char "p" a = false ->
  auth_sensitive (a ++ Js.of_number n) = false.
Proof.
  intros Hh Hp. rewrite <- (append_empty_r (Js.of_number n)).
  apply numbered_url_not_auth_sensitive; rewrite ?Hh, ?Hp; reflexivity.
Qed.

Lemma request_keeps_session {A : Type} (m : Method) (u : string) (ps : Js.object)
    (b : option Js.object) (reply : Reply A) (w : World) :
  auth_sensitive u = false -> keeps_session (apiService.request m u ps b reply) w.
Proof.
  intros Hu. unfold keeps_session, world_after. rewrite request_run, Hu. simpl.
  destruct reply; simpl; rewrite ?andb_false_r; split; reflexivity.
Qed.

Lemma request_forces_logout {A : Type} (m : Method) (u : string) (ps : Js.object)
    (b : option Js.object) (msg : string) (w : World) :
  auth_sensitive u = true ->
  forces_logout (apiService.request (A:=A) m u ps b (HttpError 401 msg)) w.
Proof.
  intros Hu. unfold forces_logout, world_after. rewrite request_run, Hu. simpl.
  split; [|split; [|reflexivity]].
  - rewrite lookup_delete_ne by discriminate. apply lookup_delete_eq.
  - apply lookup_delete_eq.
Qed.

(** X2: a 401 reply to any of the nine methods whose URL contains
    [/auth/] or [/profile], among them [getMyReviews] ([/auth/my-reviews]),
    removes the persisted [token] and [user] and sends the browser to
    [/login], whatever the arguments and the world. *)
Theorem auth_endpoints_401_force_logout (w : World) (msg : string)
    (loginData : LoginData) (registerData : RegisterData) (refresh : string)
    (profileData : ProfileUpdateData) (passwordData : PasswordChangeData)
    (page size : option Z) :
  forces_logout (apiService.login loginData (HttpError 401 msg)) w /\
  forces_logout (apiService.register registerData (HttpError 401 msg)) w /\
  forces_logout (apiService.validateToken (HttpError 401 msg)) w /\
  forces_logout (apiService.refreshToken refresh (HttpError 401 msg)) w /\
  forces_logout (apiService.logout (HttpError 401 msg)) w /\
  forces_logout (apiService.getUserProfile (HttpError 401 msg)) w /\
  forces_logout (apiService.updateUserProfile profileData (HttpError 401 msg)) w /\
  forces_logout (apiService.changePassword passwordData (HttpError 401 msg)) w /\
  forces_logout (apiService.getMyReviews page size (HttpError 401 msg)) w.
Proof.
  repeat match goal with |- _ /\ _ => split end; apply request_forces_logout; reflexivity.
Qed.

(** X3: no reply to any of the twenty-one book, favorite, recommendation
    and review methods, not even a 401, changes the persisted session or
    the location: for every number put into them, none of their URLs
    contains [/auth/] or [/profile]. *)
Theorem data_endpoints_keep_session (w : World) (id rating : Z) (text : string)
    (optText : option string) (page size limit : option Z) (sort direction : option string)
    (feedback : FeedbackType) :
  (forall r, keeps_session (apiService.getBooks page size sort direction r) w) /\
  (forall r, keeps_session (apiService.getBookById id r) w) /\
  (forall r, keeps_session (apiService.getBookDetails id r) w) /\
  (forall r, keeps_session (apiService.searchBooks text page size r) w) /\
  (forall r, keeps_session (apiService.getTopRatedBooks limit r) w) /\
  (forall r, keeps_session (apiService.getPopularBooks limit r) w) /\
  (forall r, keeps_session (apiService.getRecentBooks limit r) w) /\
  (forall r, keeps_session (apiService.addToFavorites id r) w) /\
  (forall r, keeps_session (apiService.removeFromFavorites id r) w) /\
  (forall r, keeps_session (apiService.checkFavoriteStatus id r) w) /\
  (forall r, keeps_session (apiService.getUserFavorites page size r) w) /\
  (forall r, keeps_session (apiService.getRecommendations limit r) w) /\
  (forall r, keeps_session (apiService.getAIRecommendations limit r) w) /\
  (forall r, keeps_session (apiService.getSimilarBooks id limit r) w) /\
  (forall r, keeps_session (apiService.submitRecommendationFeedback id feedback optText r) w) /\
  (forall r, keeps_session (apiService.getBookReviews id page size r) w) /\
  (forall r, keeps_session (apiService.createReview id rating text r) w) /\
  (forall r, keeps_session (apiService.getUserReviews id page size r) w) /\
  (forall r, keeps_session (apiService.submitReview id rating optText r) w) /\
  (forall r, keeps_session (apiService.updateReview id rating optText r) w) /\
  (forall r, keeps_session (apiService.deleteReview id r) w).
Proof.
  repeat match goal with |- _ /\ _ => split end; intros r; apply request_keeps_session.
  all: try reflexivity.
  all: try (apply numbered_url_end_not_auth_sensitive; reflexivity).
  all: apply numbered_url_not_auth_sensitive; reflexivity.
Qed.

(** ** The authentication provider *)

Ltac unfold_methods :=
  unfold apiService.login, apiService.register, apiService.validateToken,
    apiService.logout, apiService.getUserProfile, apiService.updateUserProfile,
    apiService.changePassword, apiService.addToFavorites, apiService.removeFromFavorites,
    apiService.checkFavoriteStatus, apiService.submitRecommendationFeedback,
    apiService.setAuthToken, apiService.clearAuthToken in *.

Ltac unfold_control :=
  unfold world_after, outcome_of, dispatch, localStorage_getItem, localStorage_setItem,
    localStorage_removeItem, set_location_href, console_error,
    bind, try_catch, try_finally, ret, throw, modify, gets in *;
  cbv beta iota zeta.

(** X4: a [login] whose request is rejected rethrows the same error and
    leaves the store signed out ([LOGIN_FAILURE]), whatever the state
    before, even an authenticated one; the default headers are untouched,
    and the persisted session is untouched unless the rejection is a 401,
    which the interceptor answers by removing it. *)
Theorem login_failure_never_authenticates
    (JSON_stringify : User -> string) (now mail password : string)
    (reply : Reply JwtResponse) (e : JsError) (w : World) :
  rejection "/auth/login" reply = Some e ->
  let m := AuthProvider.login JSON_stringify now mail password reply in
  let w' := world_after m w in
  outcome_of m w = Thrown e /\
  state w' = loggedOutState /\
  defaults_common w' = defaults_common w /\
  localStorage w' =
    (if is_401 reply then delete "user" (delete "token" (localStorage w))
     else localStorage w).
Proof.
  intros He m w'. subst m w'.
  unfold AuthProvider.login. unfold_methods. unfold_control.
  rewrite request_run.
  destruct reply as [d|st msg|msg]; simpl in He; [discriminate| |]; injection He as <-.
  - simpl. change (auth_sensitive "/auth/login") with true. rewrite andb_true_r.
    destruct (bool_decide (st = 401)); simpl; repeat split.
  - simpl. repeat split.
Qed.

(** A login that fails with a 500 in the signed-in world of the test
    suite: the store is signed out, the persisted session stays. *)
Lemma login_failure_never_authenticates_witness :
  let m := AuthProvider.login mock_stringify "2024-06-01T10:00:00.000Z"
             "test@example.com" "wrong-password" (HttpError 500 "Internal Server Error") in
  outcome_of m signedInWorld
    = Thrown (AxiosError (Some "/auth/login") (Some 500) "Internal Server Error") /\
  state (world_after m signedInWorld) = loggedOutState /\
  localStorage (world_after m signedInWorld) = localStorage signedInWorld.
Proof.
  intros m.
  destruct (login_failure_never_authenticates mock_stringify "2024-06-01T10:00:00.000Z"
              "test@example.com" "wrong-password" (HttpError 500 "Internal Server Error")
              (AxiosError (Some "/auth/login") (Some 500) "Internal Server Error")
              signedInWorld eq_refl) as (Ho & Hs & _ & Hl).
  split; [exact Ho|]. split; [exact Hs|exact Hl].
Defined.

(** X5: when the registration reply is a success carrying the new user,
    [register] is exactly the registration request followed by [login]
    with the e-mail and password of the registration data: the user record
    of the registration reply is not used. *)
Theorem register_is_registration_then_login
    (JSON_stringify : User -> string) (now : string) (userData : RegisterData)
    (reply : Reply (ApiResponse User)) (login_reply : Reply JwtResponse) (w : World) :
  registered reply = true ->
  AuthProvider.register JSON_stringify now userData reply login_reply w =
  AuthProvider.login JSON_stringify now (reg_email userData) (reg_password userData)
    login_reply
    (world_after (apiService.register userData reply)
       (world_after (dispatch (SET_LOADING true)) w)).
Proof.
  intros Hreg. destruct reply as [r| |]; simpl in Hreg; try discriminate.
  unfold AuthProvider.register. unfold_methods. unfold_control.
  rewrite !request_run. cbv beta iota zeta. rewrite Hreg.
  unfold AuthProvider.login. unfold_methods. unfold_control.
  rewrite !request_run. cbv beta iota zeta.
  destruct login_reply as [d|st msg|msg]; [reflexivity| |reflexivity].
  destruct (bool_decide (st = 401) && auth_sensitive "/auth/login"); reflexivity.
Qed.

(** The registration of the test suite: two requests, and the store
    holds the user of the login reply. *)
Lemma register_is_registration_then_login_witness :
  let userData := {| reg_name := "Test"; reg_email := "test@example.com";
                     reg_password := "password"; reg_bio := None |} in
  let reply := Ok2xx {| success := true; message := "Registration successful";
                        data := Some mockUser |} in
  let w' := world_after
              (AuthProvider.register mock_stringify "2024-06-01T10:00:00.000Z" userData
                 reply (Ok2xx mockJwtResponse))
              (page_load ∅) in
  isAuthenticated (state w') = true /\
  (fun r => (url r, Js.wire <$> body r)) <$> sent w' =
    [("/auth/register",
      Some [("name", Js.Str "Test"); ("email", Js.Str "test@example.com");
            ("password", Js.Str "password")]);
     ("/auth/login",
      Some [("email", Js.Str "test@example.com"); ("password", Js.Str "password")])].
Proof.
  intros userData reply w'. subst w'. unfold world_after.
  rewrite (register_is_registration_then_login mock_stringify "2024-06-01T10:00:00.000Z"
             userData reply (Ok2xx mockJwtResponse) (page_load ∅) eq_refl).
  vm_compute. split; reflexivity.
Defined.

(** X6: when the registration is rejected, or answered without success
    or without a user, [register] throws (the rejection, or an [Error] with
    the message of the reply, [Registration failed] if that is empty),
    leaves the store signed out and sends no login request: the
    registration request is the only one. *)
Theorem register_failure_sends_no_login
    (JSON_stringify : User -> string) (now : string) (userData : RegisterData)
    (reply : Reply (ApiResponse User)) (login_reply : Reply JwtResponse) (w : World) :
  registered reply = false ->
  let m := AuthProvider.register JSON_stringify now userData reply login_reply in
  let w' := world_after m w in
  outcome_of m w = Thrown (registration_error reply) /\
  state w' = loggedOutState /\
  url <$> sent w' = ((url <$> sent w) ++ ["/auth/register"])%list /\
  defaults_common w' = defaults_common w /\
  localStorage w' =
    (if is_401 reply then delete "user" (delete "token" (localStorage w))
     else localStorage w).
Proof.
  intros Hreg m w'. subst m w'.
  unfold AuthProvider.register. unfold_methods. unfold_control.
  rewrite request_run. cbv beta iota zeta.
  destruct reply as [r|st msg|msg]; simpl in Hreg.
  - rewrite Hreg. simpl. rewrite fmap_app. simpl. rewrite url_outgoing.
    repeat match goal with |- _ /\ _ => split end; reflexivity.
  - simpl. change (auth_sensitive "/auth/register") with true. rewrite andb_true_r.
    destruct (bool_decide (st = 401)); simpl; rewrite fmap_app; simpl; rewrite url_outgoing;
      repeat match goal with |- _ /\ _ => split end; reflexivity.
  - simpl. rewrite fmap_app. simpl. rewrite url_outgoing.
    repeat match goal with |- _ /\ _ => split end; reflexivity.
Qed.

(** A registration answered with [success: false]. *)
Lemma register_failure_sends_no_login_witness :
  let m := AuthProvider.register mock_stringify "2024-06-01T10:00:00.000Z"
             {| reg_name := "Test"; reg_email := "test@example.com";
                reg_password := "password"; reg_bio := None |}
             (Ok2xx {| success := false; message := "Email already in use"; data := None |})
             (Ok2xx mockJwtResponse) in
  outcome_of m (page_load ∅) = Thrown (Error "Email already in use") /\
  state (world_after m (page_load ∅)) = loggedOutState /\
  url <$> sent (world_after m (page_load ∅)) = ["/auth/register"].
Proof.
  intros m.
  destruct (register_failure_sends_no_login mock_stringify "2024-06-01T10:00:00.000Z"
              {| reg_name := "Test"; reg_email := "test@example.com";
                 reg_password := "password"; reg_bio := None |}
              (Ok2xx {| success := false; message := "Email already in use"; data := None |})
              (Ok2xx mockJwtResponse) (page_load ∅) eq_refl) as (Ho & Hs & Hu & _).
  split; [exact Ho|]. split; [exact Hs|exact Hu].
Defined.

(** X7: [updateProfile] never changes the token or the default headers
    and always ends with [loading] false.  On a successful reply with a
    user it returns, stores that user and persists it; otherwise it throws
    and the user and [isAuthenticated] are as before. *)
Theorem updateProfile_adopts_or_restores
    (JSON_stringify : User -> string) (profileData : ProfileUpdateData)
    (reply : Reply (ApiResponse User)) (w : World) :
  let m := AuthProvider.updateProfile JSON_stringify profileData reply in
  let w' := world_after m w in
  token (state w') = token (state w) /\
  loading (state w') = false /\
  defaults_common w' = defaults_common w /\
  match updated_profile reply with
  | Some d =>
      outcome_of m w = Returned tt /\
      user (state w') = Some d /\
      isAuthenticated (state w') = true /\
      localStorage w' = <["user" := JSON_stringify d]> (localStorage w)
  | None =>
      (exists e, outcome_of m w = Thrown e) /\
      user (state w') = user (state w) /\
      isAuthenticated (state w') = isAuthenticated (state w) /\
      localStorage w' =
        (if is_401 reply then delete "user" (delete "token" (localStorage w))
         else localStorage w)
  end.
Proof.
  intros m w'. subst m w'.
  unfold AuthProvider.updateProfile. unfold_methods. unfold_control.
  rewrite request_run. cbv beta iota zeta.
  destruct reply as [r|st msg|msg]; simpl.
  - destruct (success r); simpl; [destruct (data r) as [d|]; simpl|].
    all: repeat match goal with |- _ /\ _ => split end; eauto.
  - change (auth_sensitive "/auth/profile") with true. rewrite andb_true_r.
    destruct (bool_decide (st = 401)); simpl.
    all: repeat match goal with |- _ /\ _ => split end; eauto.
  - repeat match goal with |- _ /\ _ => split end; eauto.
Qed.

(** X8: [refreshProfile] never throws and never changes the token.  When
    not authenticated it does nothing at all; when authenticated, a 2xx
    reply replaces and persists the user, and a failure only logs one
    console entry and leaves the store as it was. *)
Theorem refreshProfile_never_throws
    (JSON_stringify : User -> string) (reply : Reply User) (w : World) :
  let m := AuthProvider.refreshProfile JSON_stringify reply in
  let w' := world_after m w in
  outcome_of m w = Returned tt /\
  token (state w') = token (state w) /\
  (if isAuthenticated (state w) then
     match reply with
     | Ok2xx profile =>
         state w' = {| user := Some profile; token := token (state w);
                       loading := false; isAuthenticated := true |} /\
         localStorage w' = <["user" := JSON_stringify profile]> (localStorage w) /\
         console w' = console w
     | _ =>
         state w' = state w /\
         console w' =
           (console w ++ [("Failed to refresh profile:",
                           default (Error "") (rejection "/auth/profile" reply))])%list
     end
   else w' = w).
Proof.
  intros m w'. subst m w'.
  unfold AuthProvider.refreshProfile. unfold_methods. unfold_control.
  destruct (isAuthenticated (state w)) eqn:Hauth; simpl; [|repeat split].
  rewrite request_run. cbv beta iota zeta.
  destruct reply as [p|st msg|msg]; simpl.
  - repeat split.
  - destruct (bool_decide (st = 401) && auth_sensitive "/auth/profile"); repeat split.
  - repeat split.
Qed.

(** X9: for an authenticated user, a 401 on the profile endpoint (read by
    [refreshProfile] or written by [updateProfile]) makes the interceptor
    remove the persisted session and go to [/login], while the
    authentication state in memory still says authenticated with the same
    user and token, and the default [Authorization] header stays. *)
Theorem profile_401_wipes_storage_not_store
    (JSON_stringify : User -> string) (profileData : ProfileUpdateData)
    (msg : string) (w : World) :
  isAuthenticated (state w) = true ->
  let refresh := AuthProvider.refreshProfile JSON_stringify (HttpError 401 msg) in
  let update := AuthProvider.updateProfile JSON_stringify profileData (HttpError 401 msg) in
  (forces_logout refresh w /\
   state (world_after refresh w) = state w /\
   defaults_common (world_after refresh w) = defaults_common w) /\
  (forces_logout update w /\
   isAuthenticated (state (world_after update w)) = true /\
   user (state (world_after update w)) = user (state w) /\
   token (state (world_after update w)) = token (state w) /\
   defaults_common (world_after update w) = defaults_common w).
Proof.
  intros Hauth refresh update. subst refresh update.
  assert (Hdel : forall (m : gmap string string),
            delete "user" (delete "token" m) !! "token" = None /\
            delete "user" (delete "token" m) !! "user" = None).
  { intros m. split.
    - rewrite lookup_delete_ne by discriminate. apply lookup_delete_eq.
    - apply lookup_delete_eq. }
  unfold forces_logout, AuthProvider.refreshProfile, AuthProvider.updateProfile.
  unfold_methods. unfold_control. rewrite Hauth. simpl.
  rewrite !request_run. cbv beta iota zeta. simpl.
  destruct (Hdel (localStorage w)) as [Ht Hu].
  repeat match goal with |- _ /\ _ => split end; auto.
Qed.

(** The signed-in world of the test suite after a 401 on a profile
    refresh. *)
Lemma profile_401_wipes_storage_not_store_witness :
  let m := AuthProvider.refreshProfile mock_stringify (HttpError 401 "Unauthorized") in
  localStorage (world_after m signedInWorld) !! "token" = None /\
  location_href (world_after m signedInWorld) = "/login" /\
  isAuthenticated (state (world_after m signedInWorld)) = true /\
  defaults_common (world_after m signedInWorld) !! "Authorization"
    = Some "Bearer mock-jwt-token".
Proof.
  intros m.
  destruct (profile_401_wipes_storage_not_store mock_stringify
              {| pu_name := None; pu_bio := None; pu_avatarUrl := None |}
              "Unauthorized" signedInWorld eq_refl) as [((Ht & _ & Hl) & Hs & Hd) _].
  split; [exact Ht|]. split; [exact Hl|]. split.
  - fold m in Hs. rewrite Hs. reflexivity.
  - fold m in Hd. rewrite Hd. reflexivity.
Defined.

(** X10: [changePassword] never changes the authentication state or the
    default headers.  It throws the mismatch error when the new password
    and its confirmation differ, returns on a reply with [success],
    throws an [Error] with the message of the reply ([Password change
    failed] if empty) on a reply without [success], and rethrows a
    rejection. *)
Theorem changePassword_outcome (passwordData : PasswordChangeData)
    (reply : Reply (ApiResponse unit)) (w : World) :
  let m := AuthProvider.changePassword passwordData reply in
  let w' := world_after m w in
  state w' = state w /\
  defaults_common w' = defaults_common w /\
  outcome_of m w =
    (if negb (String.eqb (newPassword passwordData) (confirmPassword passwordData)) then
       Thrown (Error "New password and confirm password do not match")
     else
       match reply with
       | Ok2xx r =>
           if success r then Returned tt
           else Thrown (Error (if String.eqb (message r) "" then "Password change failed"
                               else message r))
       | _ => Thrown (default (Error "") (rejection "/auth/change-password" reply))
       end).
Proof.
  intros m w'. subst m w'.
  unfold AuthProvider.changePassword. unfold_methods. unfold_control.
  destruct (String.eqb (newPassword passwordData) (confirmPassword passwordData)); simpl;
    [|repeat split].
  rewrite request_run. cbv beta iota zeta.
  destruct reply as [r|st msg|msg]; simpl.
  - destruct (success r); simpl; repeat split.
  - destruct (bool_decide (st = 401) && auth_sensitive "/auth/change-password");
      repeat split.
  - repeat split.
Qed.

(** ** The reducer, again *)

Lemma authReducer_signed_out_is_empty (s : AuthState) (a : AuthAction) :
  isAuthenticated s = true \/ (user s = None /\ token s = None) ->
  isAuthenticated (authReducer s a) = true \/
  (user (authReducer s a) = None /\ token (authReducer s a) = None).
Proof. intros Hs. destruct a; simpl; auto. Qed.

(** X11: in every state the reducer reaches from the initial state, by
    any sequence of actions and whatever their payloads, a user or a token
    is present only when [isAuthenticated] is true: a signed-out state
    holds neither. *)
Theorem reachable_states_shape (actions : list AuthAction) :
  let s := run_actions initialState actions in
  isAuthenticated s = true \/ (user s = None /\ token s = None).
Proof.
  simpl. unfold run_actions.
  assert (H0 : isAuthenticated initialState = true \/
               (user initialState = None /\ token initialState = None))
    by (right; split; reflexivity).
  revert H0. generalize initialState.
  induction actions as [|a actions IH]; intros s Hs; simpl; [exact Hs|].
  apply IH, authReducer_signed_out_is_empty, Hs.
Qed.

(** ** Sessions across page loads *)

Lemma truthy_Some (x : string) : x <> "" -> Js.truthy (Some x) = true.
Proof. intros Hx. simpl. destruct (String.eqb_spec x ""); simpl; congruence. Qed.

(** X12: a successful login survives a page reload.  If [JSON.parse]
    reads back the user [JSON.stringify] wrote, the serialized user and
    the token are not empty and the backend validates the token, then
    [initializeAuth] on a fresh page over the storage the login left
    restores the very state the login produced, keeps the storage, sets
    the default header from the token and sends one request,
    [/auth/validate], carrying that token. *)
Theorem login_survives_reload
    (JSON_stringify : User -> string) (JSON_parse : string -> option (option User))
    (now mail password : string) (response : JwtResponse) (v : Validation) (w : World) :
  let u := AuthProvider.user_of_response response now in
  JSON_parse (JSON_stringify u) = Some (Some u) ->
  JSON_stringify u <> "" ->
  jwt_token response <> "" ->
  valid v = true ->
  let w1 := world_after
              (AuthProvider.login JSON_stringify now mail password (Ok2xx response)) w in
  let w2 := world_after (AuthProvider.initializeAuth JSON_parse (Ok2xx v))
              (page_load (localStorage w1)) in
  state w2 = state w1 /\
  localStorage w2 = localStorage w1 /\
  defaults_common w2 !! "Authorization" = Some ("Bearer " ++ jwt_token response) /\
  (fun r => (url r, headers r !! "Authorization")) <$> sent w2
    = [("/auth/validate", Some ("Bearer " ++ jwt_token response))].
Proof.
  intros u Hparse Hnonempty Htoken Hvalid w1 w2.
  assert (Hl1 : localStorage w1 =
            <["user" := JSON_stringify u]> (<["token" := jwt_token response]> (localStorage w))).
  { subst w1. unfold AuthProvider.login. unfold_methods. unfold_control.
    rewrite request_run. reflexivity. }
  assert (Hs1 : state w1 = {| user := Some u; token := Some (jwt_token response);
                              loading := false; isAuthenticated := true |}).
  { subst w1. unfold AuthProvider.login. unfold_methods. unfold_control.
    rewrite request_run. reflexivity. }
  assert (Htok : localStorage w1 !! "token" = Some (jwt_token response)).
  { rewrite Hl1, lookup_insert_ne by discriminate. apply lookup_insert_eq. }
  assert (Husr : localStorage w1 !! "user" = Some (JSON_stringify u)).
  { rewrite Hl1. apply lookup_insert_eq. }
  subst w2. rewrite Hs1. generalize dependent (localStorage w1). intros storage _ Htok Husr.
  unfold AuthProvider.initializeAuth, AuthProvider.parse. unfold_methods. unfold_control.
  cbn [page_load localStorage]. rewrite Htok, Husr, !truthy_Some by assumption.
  cbn [andb]. rewrite request_run. cbv beta iota zeta. rewrite Hvalid.
  simpl. rewrite Hparse. cbv beta iota zeta.
  unfold outgoing. cbn [page_load localStorage defaults_common]. rewrite Htok.
  rewrite truthy_Some by assumption. simpl.
  repeat match goal with |- _ /\ _ => split end; try reflexivity.
Qed.

(** X13: after a logout, whatever the backend answered, a page reload
    ends signed out without sending any request and without touching the
    storage. *)
Theorem logout_then_reload_is_signed_out
    (JSON_parse : string -> option (option User)) (reply : Reply unit)
    (validation : Reply Validation) (w : World) :
  let w1 := world_after (AuthProvider.logout reply) w in
  let w2 := world_after (AuthProvider.initializeAuth JSON_parse validation)
              (page_load (localStorage w1)) in
  state w2 = loggedOutState /\
  sent w2 = [] /\
  localStorage w2 = localStorage w1.
Proof.
  intros w1 w2.
  assert (Htok : localStorage w1 !! "token" = None).
  { subst w1. unfold AuthProvider.logout. unfold_methods. unfold_control.
    rewrite request_run. cbv beta iota zeta.
    destruct reply as [[]|st msg|msg]; simpl.
    2: destruct (bool_decide (st = 401) && auth_sensitive "/auth/logout"); simpl.
    all: rewrite lookup_delete_ne by discriminate; apply lookup_delete_eq. }
  subst w2. generalize dependent (localStorage w1). intros storage Htok.
  unfold AuthProvider.initializeAuth. unfold_control.
  cbn [page_load localStorage]. rewrite Htok. simpl. repeat split.
Qed.

(** The login of the test suite on a fresh page, then a reload. *)
Lemma login_survives_reload_witness :
  let w1 := world_after
              (AuthProvider.login mock_stringify loginTime "test@example.com" "password"
                 (Ok2xx mockJwtResponse)) (page_load ∅) in
  let w2 := world_after
              (AuthProvider.initializeAuth mock_parse_login (Ok2xx (mockValidation true)))
              (page_load (localStorage w1)) in
  state w2 = state w1 /\
  (fun r => (url r, headers r !! "Authorization")) <$> sent w2
    = [("/auth/validate", Some "Bearer new-jwt-token")].
Proof.
  intros w1 w2.
  assert (Hparse : mock_parse_login
                     (mock_stringify (AuthProvider.user_of_response mockJwtResponse loginTime))
                   = Some (Some (AuthProvider.user_of_response mockJwtResponse loginTime)))
    by reflexivity.
  assert (Hstr : mock_stringify (AuthProvider.user_of_response mockJwtResponse loginTime)
                 <> "") by discriminate.
  assert (Htok : jwt_token mockJwtResponse <> "") by discriminate.
  destruct (login_survives_reload mock_stringify mock_parse_login loginTime
              "test@example.com" "password" mockJwtResponse (mockValidation true)
              (page_load ∅) Hparse Hstr Htok eq_refl) as (Hs & _ & _ & Hsent).
  split; [exact Hs|exact Hsent].
Defined.

(** ** Strings *)

Lemma trimStart_spec (s : JsString.t) :
  exists pre, s = (pre ++ JsString.trimStart s)%list /\ all_space pre = true /\
    (forall c, head (JsString.trimStart s) = Some c -> JsString.is_space c = false).
Proof.
  induction s as [|c s (pre & Hs & Hpre & Hfirst)]; simpl.
  - exists []. repeat split. intros c Hc. discriminate.
  - destruct (JsString.is_space c) eqn:Hc.
    + exists (c :: pre). simpl. rewrite <- Hs. unfold all_space in *. simpl.
      rewrite Hc, Hpre. repeat split. exact Hfirst.
    + exists []. repeat split. simpl. intros c' Hc'. congruence.
Qed.

Lemma trimEnd_spec (s : JsString.t) :
  exists post, s = (JsString.trimEnd s ++ post)%list /\ all_space post = true /\
    (forall c, list.last (JsString.trimEnd s) = Some c -> JsString.is_space c = false).
Proof.
  induction s as [|c s (post & Hs & Hpost & Hlast)]; simpl.
  - exists []. repeat split. intros c Hc. discriminate.
  - destruct (JsString.trimEnd s) as [|d r] eqn:Hr.
    + destruct (JsString.is_space c) eqn:Hc.
      * exists (c :: post). unfold all_space in *. simpl. rewrite Hc, Hpost.
        repeat split; [rewrite Hs at 1; reflexivity|]. intros c' Hc'. discriminate.
      * exists post. simpl in *. repeat split; [f_equal; exact Hs|assumption|].
        intros c' Hc'. injection Hc' as <-. exact Hc.
    + exists post. repeat split; [simpl; f_equal; exact Hs|assumption|].
      intros c' Hc'. apply Hlast. rewrite <- Hc'. destruct r; reflexivity.
Qed.

Lemma trimEnd_head (s : JsString.t) (c : N) :
  head (JsString.trimEnd s) = Some c -> head s = Some c.
Proof.
  destruct s as [|d s]; simpl; [discriminate|].
  destruct (JsString.trimEnd s); [destruct (JsString.is_space d)|]; simpl; congruence.
Qed.

Lemma all_space_app (a b : JsString.t) :
  all_space (a ++ b)%list = all_space a && all_space b.
Proof. apply forallb_app. Qed.

(** [trim] removes white space at both ends and nothing else. *)
Lemma trim_spec (s : JsString.t) :
  exists pre post,
    s = (pre ++ JsString.trim s ++ post)%list /\
    all_space pre = true /\ all_space post = true /\
    trimmed (JsString.trim s).
Proof.
  unfold JsString.trim.
  destruct (trimStart_spec s) as (pre & Hs & Hpre & Hfirst).
  destruct (trimEnd_spec (JsString.trimStart s)) as (post & Ht & Hpost & Hlast).
  exists pre, post. repeat split; try assumption.
  - rewrite <- Ht. exact Hs.
  - intros c Hc. apply Hfirst, trimEnd_head, Hc.
Qed.

Lemma all_space_trim (s : JsString.t) :
  all_space s = true <-> JsString.trim s = [].
Proof.
  destruct (trim_spec s) as (pre & post & Hs & Hpre & Hpost & Hfirst & _). split.
  - intros Hall. rewrite Hs, !all_space_app in Hall.
    destruct (JsString.trim s) as [|c r]; [reflexivity|].
    unfold all_space in Hall at 2. simpl in Hall.
    rewrite (Hfirst c eq_refl) in Hall. destruct (all_space pre); simpl in Hall; discriminate.
  - intros Ht. rewrite Hs, Ht, !all_space_app, Hpre, Hpost. reflexivity.
Qed.

(** ** The header *)

(** X14: [handleSearch] does nothing exactly when the code units of the
    search text are all white space.  Otherwise it hands
    [encodeURIComponent] the text with the white space at both ends
    removed, which is not empty, neither starts nor ends with white space
    and differs from the text only by white space around it, and
    navigates to [/search?q=] followed by the encoding, or throws what
    [encodeURIComponent] throws. *)
Theorem handleSearch_navigates_iff_not_blank
    (encodeURIComponent : JsString.t -> Outcome string) (searchQuery : string) :
  (Header.handleSearch encodeURIComponent searchQuery = Returned None
   <-> all_space (JsString.units searchQuery) = true) /\
  (all_space (JsString.units searchQuery) = false ->
   exists pre query post,
     JsString.units searchQuery = (pre ++ query ++ post)%list /\
     all_space pre = true /\ all_space post = true /\
     query <> [] /\
     trimmed query /\
     Header.handleSearch encodeURIComponent searchQuery =
       match encodeURIComponent query with
       | Returned encoded => Returned (Some ("/search?q=" ++ encoded))
       | Thrown error => Thrown error
       end).
Proof.
  unfold Header.handleSearch. rewrite all_space_trim.
  destruct (trim_spec (JsString.units searchQuery))
    as (pre & post & Hs & Hpre & Hpost & Htrimmed).
  destruct (JsString.trim (JsString.units searchQuery)) as [|c r] eqn:Ht; simpl.
  - split; [split; reflexivity|]. intros H.
    destruct (all_space (JsString.units searchQuery)) eqn:Hall; [discriminate|].
    assert (Hall' : all_space (JsString.units searchQuery) = true)
      by (rewrite Hs, !all_space_app, Hpre, Hpost; reflexivity).
    congruence.
  - split.
    + split; [|discriminate].
      destruct (encodeURIComponent (c :: r)); discriminate.
    + intros _. exists pre, (c :: r), post.
      repeat split; try assumption; try apply Htrimmed. discriminate.
Qed.

(** A search text that is one no-break space, and one with spaces around
    two words. *)
Lemma handleSearch_navigates_iff_not_blank_witness :
  Header.handleSearch mock_encode nbsp = Returned None /\
  Header.handleSearch mock_encode "  test query " = Returned (Some "/search?q=test%20query").
Proof.
  split.
  - apply (proj1 (handleSearch_navigates_iff_not_blank mock_encode nbsp)). reflexivity.
  - destruct (proj2 (handleSearch_navigates_iff_not_blank mock_encode "  test query ")
                eq_refl)
      as (pre & query & post & _ & _ & _ & _ & _ & _).
    reflexivity.
Defined.

(** X15: [handleLogout] of the header always navigates to [/]: the
    logout of the provider never throws, so the [catch] branch of the
    handler is never taken.  Whatever the backend answers, the persisted
    session is removed and the store is signed out; a failed logout request
    leaves exactly one console entry. *)
Theorem handleLogout_always_goes_home (reply : Reply unit) (w : World) :
  let m := Header.handleLogout reply in
  let w' := world_after m w in
  outcome_of m w = Returned (Some "/") /\
  localStorage w' !! "token" = None /\
  localStorage w' !! "user" = None /\
  state w' = loggedOutState /\
  length (console w') = (length (console w) + match rejection "/auth/logout" reply with
                                               | Some _ => 1
                                               | None => 0
                                               end)%nat.
Proof.
  intros m w'. subst m w'.
  unfold Header.handleLogout, AuthProvider.logout. unfold_methods. unfold_control.
  rewrite request_run. cbv beta iota zeta.
  destruct reply as [[]|st msg|msg]; simpl.
  2: destruct (bool_decide (st = 401) && auth_sensitive "/auth/logout"); simpl.
  all: rewrite ?length_app; simpl.
  all: repeat match goal with |- _ /\ _ => split end; try reflexivity; try lia.
  all: try (rewrite lookup_delete_ne by discriminate); apply lookup_delete_eq.
Qed.

(** ** Route guards *)

Lemma guards_complementary (s : AuthState) :
  loading s = false ->
  (isAuthenticated s = true /\
   App.ProtectedRoute s = App.Children /\ App.PublicRoute s = App.Navigate "/") \/
  (isAuthenticated s = false /\
   App.ProtectedRoute s = App.Navigate "/login" /\ App.PublicRoute s = App.Children).
Proof.
  intros Hl. unfold App.ProtectedRoute, App.PublicRoute. rewrite Hl.
  destruct (isAuthenticated s); [left|right]; repeat split.
Qed.

Lemma initializeAuth_ends_loading (JSON_parse : string -> option (option User))
    (reply : Reply Validation) (w : World) :
  loading (state (world_after (AuthProvider.initializeAuth JSON_parse reply) w)) = false.
Proof.
  unfold AuthProvider.initializeAuth, AuthProvider.parse. unfold_methods. unfold_control.
  destruct (Js.truthy (localStorage w !! "token") && Js.truthy (localStorage w !! "user"));
    [|reflexivity].
  rewrite request_run. cbv beta iota zeta.
  destruct reply as [v|st msg|msg]; simpl.
  - destruct (valid v); [destruct (JSON_parse _)|]; reflexivity.
  - destruct (bool_decide (st = 401) && auth_sensitive "/auth/validate"); reflexivity.
  - reflexivity.
Qed.

(** X16: the route guards.  On the initial state both guards show the
    loading placeholder.  After startup, whatever the storage and the
    validation reply, exactly one of them renders its children and the
    other redirects: the protected route redirects to [/login] when signed
    out, the public route to [/] when signed in.  After a successful login
    the protected route renders its children; after any finished login
    attempt neither guard shows the placeholder; after a logout the
    protected route redirects to [/login]. *)
Theorem route_guards_follow_session (JSON_stringify : User -> string)
    (JSON_parse : string -> option (option User)) (storage : gmap string string)
    (validation : Reply Validation)
    (now mail password : string) (response : JwtResponse)
    (login_reply : Reply JwtResponse) (logout_reply : Reply unit) (w : World) :
  let started :=
    state (world_after (AuthProvider.initializeAuth JSON_parse validation)
             (page_load storage)) in
  let after_login :=
    state (world_after
             (AuthProvider.login JSON_stringify now mail password (Ok2xx response)) w) in
  let after_attempt :=
    state (world_after (AuthProvider.login JSON_stringify now mail password login_reply) w) in
  let after_logout := state (world_after (AuthProvider.logout logout_reply) w) in
  (App.ProtectedRoute initialState = App.LoadingPlaceholder /\
   App.PublicRoute initialState = App.LoadingPlaceholder) /\
  ((isAuthenticated started = true /\
    App.ProtectedRoute started = App.Children /\
    App.PublicRoute started = App.Navigate "/") \/
   (isAuthenticated started = false /\
    App.ProtectedRoute started = App.Navigate "/login" /\
    App.PublicRoute started = App.Children)) /\
  (App.ProtectedRoute after_login = App.Children /\
   App.PublicRoute after_login = App.Navigate "/") /\
  App.ProtectedRoute after_attempt <> App.LoadingPlaceholder /\
  App.PublicRoute after_attempt <> App.LoadingPlaceholder /\
  (App.ProtectedRoute after_logout = App.Navigate "/login" /\
   App.PublicRoute after_logout = App.Children).
Proof.
  intros started after_login after_attempt after_logout.
  split; [split; reflexivity|].
  split; [apply guards_complementary, initializeAuth_ends_loading|].
  subst after_login after_attempt after_logout.
  unfold AuthProvider.login, AuthProvider.logout. unfold_methods. unfold_control.
  rewrite !request_run. cbv beta iota zeta.
  split; [split; reflexivity|]. split; [|split].
  - destruct login_reply as [r|st msg|msg]; simpl; discriminate.
  - destruct login_reply as [r|st msg|msg]; simpl; discriminate.
  - destruct logout_reply as [[]|st msg|msg]; simpl; try (split; reflexivity).
Qed.

(** ** The login and registration pages *)

Lemma truthy_nonempty (t : string) : Js.truthy (Some t) = true -> t <> "".
Proof. simpl. destruct (String.eqb_spec t ""); [discriminate|auto]. Qed.

(** Case analysis on a status: 401 or not, with the tests on it decided. *)
Ltac case_status st code :=
  let H := fresh "Hst" in
  destruct (decide (st = code)) as [->|H];
  [ rewrite ?(bool_decide_eq_true_2 (code = code)),
      ?(bool_decide_eq_true_2 (Some code = Some code)) by reflexivity
  | rewrite ?(bool_decide_eq_false_2 (st = code)),
      ?(bool_decide_eq_false_2 (Some st = Some code)) by congruence ];
  simpl.

(** X17: [onSubmit] of the login page never throws and sends one request,
    to [/auth/login], whose body is the e-mail and the password of the form
    and nothing else.  On a 2xx reply it shows no error, navigates to the
    page the user came from ([/] when there is none) and the store is
    authenticated; on any failure it does not navigate, shows a text that
    is not empty, and the store is signed out. *)
Theorem LoginPage_onSubmit_outcomes (JSON_stringify : User -> string) (now : string)
    (from : option string) (data : LoginPage.LoginFormData) (reply : Reply JwtResponse)
    (w : World) :
  let m := LoginPage.onSubmit JSON_stringify now from data reply in
  let w' := world_after m w in
  (exists req, sent w' = (sent w ++ [req])%list /\
     url req = "/auth/login" /\
     body req = Some [("email", Js.Str (LoginPage.form_email data));
                      ("password", Js.Str (LoginPage.form_password data))]) /\
  match reply with
  | Ok2xx response =>
      outcome_of m w =
        Returned {| LoginPage.shown_error := None;
                    LoginPage.navigated := Some (Js.or_else from "/") |} /\
      isAuthenticated (state w') = true
  | _ =>
      exists text,
        outcome_of m w =
          Returned {| LoginPage.shown_error := Some text; LoginPage.navigated := None |} /\
        text <> "" /\
        state w' = loggedOutState
  end.
Proof.
  intros m w'. subst m w'.
  unfold LoginPage.onSubmit, AuthProvider.login. unfold_methods. unfold_control.
  rewrite request_run. cbv beta iota zeta.
  destruct reply as [r|st msg|msg]; simpl;
    [| case_status st 401; [|destruct (negb (msg =? "")%string) eqn:Hmsg; simpl] |].
  all: (split; [eexists; split; [reflexivity|]; rewrite url_outgoing; split; [reflexivity|];
                apply outgoing_fields|]).
  - split; reflexivity.
  - eexists. repeat split. discriminate.
  - exists msg. repeat split. apply truthy_nonempty. exact Hmsg.
  - eexists. repeat split. discriminate.
  - eexists. repeat split. discriminate.
Qed.

(** X18: [onSubmit] of the registration page never throws.  Its first
    request is a POST to [/auth/register] whose body on the wire is the
    name, e-mail and password of the form, and the bio only if that is not
    empty; the password confirmation is never sent.  It schedules the
    navigation to [/] after 2000 ms exactly when the store ends
    authenticated, and shows an error exactly when it schedules nothing. *)
Theorem RegisterPage_onSubmit_sends_form_fields (JSON_stringify : User -> string)
    (now : string) (form : RegisterPage.RegisterFormData)
    (reply : Reply (ApiResponse User)) (login_reply : Reply JwtResponse) (w : World) :
  let m := RegisterPage.onSubmit JSON_stringify now form reply login_reply in
  let w' := world_after m w in
  (exists req rest,
     sent w' = (sent w ++ req :: rest)%list /\
     method req = POST /\ url req = "/auth/register" /\
     Js.wire <$> body req =
       Some ([("name", Js.Str (RegisterPage.form_name form));
              ("email", Js.Str (RegisterPage.form_email form));
              ("password", Js.Str (RegisterPage.form_password form))]
             ++ match RegisterPage.form_bio form with
                | Some b => if String.eqb b "" then [] else [("bio", Js.Str b)]
                | None => []
                end)%list) /\
  (exists r, outcome_of m w = Returned r /\
     (RegisterPage.scheduled r = Some (2000, "/") <-> isAuthenticated (state w') = true) /\
     (RegisterPage.scheduled r = None <-> is_Some (RegisterPage.shown_error r))).
Proof.
  intros m w'. subst m w'.
  assert (Hwire : Js.wire (apiService.RegisterData_object (RegisterPage.registration form)) =
            ([("name", Js.Str (RegisterPage.form_name form));
              ("email", Js.Str (RegisterPage.form_email form));
              ("password", Js.Str (RegisterPage.form_password form))]
             ++ match RegisterPage.form_bio form with
                | Some b => if String.eqb b "" then [] else [("bio", Js.Str b)]
                | None => []
                end)%list).
  { unfold apiService.RegisterData_object, RegisterPage.registration. simpl.
    destruct (RegisterPage.form_bio form) as [b|]; simpl; [|reflexivity].
    destruct (String.eqb b ""); reflexivity. }
  assert (Hreq : forall w0,
            method (outgoing POST "/auth/register" []
                      (Some (apiService.RegisterData_object (RegisterPage.registration form)))
                      w0) = POST /\
            url (outgoing POST "/auth/register" []
                   (Some (apiService.RegisterData_object (RegisterPage.registration form)))
                   w0) = "/auth/register" /\
            Js.wire <$> body (outgoing POST "/auth/register" []
                   (Some (apiService.RegisterData_object (RegisterPage.registration form)))
                   w0) = Some (Js.wire (apiService.RegisterData_object
                                          (RegisterPage.registration form)))).
  { intros w0. destruct (outgoing_fields POST "/auth/register" []
      (Some (apiService.RegisterData_object (RegisterPage.registration form))) w0)
      as (-> & -> & _ & ->). repeat split. }
  rewrite <- Hwire.
  unfold RegisterPage.onSubmit, AuthProvider.register, AuthProvider.login.
  unfold_methods. unfold_control.
  rewrite request_run. cbv beta iota zeta.
  destruct reply as [r|st msg|msg]; simpl.
  - destruct (success r && bool_decide (is_Some (data r))); simpl.
    + rewrite request_run. cbv beta iota zeta.
      destruct login_reply as [lr|lst lmsg|lmsg]; simpl.
      2: case_status lst 401; (case_status 401 400 || case_status lst 400);
           try (destruct (negb (lmsg =? "")%string); simpl).
      all: (split; [eexists _, [_]; rewrite <- app_assoc; split; [reflexivity|]; apply Hreq|]).
      all: eexists; (split; [reflexivity|]); simpl.
      all: split; split; try discriminate; try reflexivity; eauto.
      all: intros []; discriminate.
    + split; [eexists _, []; split; [reflexivity|]; apply Hreq|].
      eexists; (split; [reflexivity|]); simpl.
      split; split; try discriminate; try reflexivity; eauto.
  - case_status st 401; (case_status 401 400 || case_status st 400);
      try (destruct (negb (msg =? "")%string); simpl).
    all: (split; [eexists _, []; split; [reflexivity|]; apply Hreq|]).
    all: eexists; (split; [reflexivity|]); simpl.
    all: split; split; try discriminate; try reflexivity; eauto.
  - split; [eexists _, []; split; [reflexivity|]; apply Hreq|].
    eexists; (split; [reflexivity|]); simpl.
    split; split; try discriminate; try reflexivity; eauto.
Qed.

(** ** The profile page *)

Lemma updateData_wire (form : ProfilePage.ProfileFormData) (u : option User) :
  Js.wire (apiService.ProfileUpdateData_object (ProfilePage.updateData form u)) =
    changed_fields form u.
Proof.
  unfold apiService.ProfileUpdateData_object, ProfilePage.updateData, Js.wire, changed_fields.
  simpl.
  case_bool_decide;
    destruct (String.eqb (ProfilePage.form_bio form) _);
    destruct (String.eqb (ProfilePage.form_avatarUrl form) _); reflexivity.
Qed.

Lemma has_keys_wire (d : ProfileUpdateData) :
  ProfilePage.has_keys d = false <-> Js.wire (apiService.ProfileUpdateData_object d) = [].
Proof.
  unfold ProfilePage.has_keys, apiService.ProfileUpdateData_object, Js.wire.
  destruct d as [[n|] [b|] [a|]]; simpl; split; intros H; try discriminate H; reflexivity.
Qed.

(** X19: [handleProfileUpdate] never throws and always ends with
    [updateLoading] false.  When no field of the form differs from the
    current user it sends nothing, leaves the world as it is and only
    leaves edit mode; otherwise it sends exactly one PUT to
    [/auth/profile] whose body on the wire holds exactly the fields that
    differ, in the order name, bio, avatarUrl. *)
Theorem handleProfileUpdate_sends_only_changes (JSON_stringify : User -> string)
    (p : ProfilePage.PageState) (reply : Reply (ApiResponse User)) (w : World) :
  let m := ProfilePage.handleProfileUpdate JSON_stringify p reply in
  let w' := world_after m w in
  (exists p', outcome_of m w = Returned p' /\ ProfilePage.updateLoading p' = false) /\
  match changed_fields (ProfilePage.profileForm p) (user (state w)) with
  | [] =>
      w' = w /\
      outcome_of m w =
        Returned {| ProfilePage.editMode := false;
                    ProfilePage.passwordDialogOpen := ProfilePage.passwordDialogOpen p;
                    ProfilePage.profileForm := ProfilePage.profileForm p;
                    ProfilePage.passwordForm := ProfilePage.passwordForm p;
                    ProfilePage.updateLoading := false;
                    ProfilePage.shown_error := None;
                    ProfilePage.shown_success := None |}
  | changes =>
      exists req, sent w' = (sent w ++ [req])%list /\
        method req = PUT /\ url req = "/auth/profile" /\
        Js.wire <$> body req = Some changes
  end.
Proof.
  intros m w'. subst m w'.
  rewrite <- updateData_wire.
  unfold ProfilePage.handleProfileUpdate. unfold_control.
  change (ProfilePage.profileForm (ProfilePage.set_messages None None true p))
    with (ProfilePage.profileForm p).
  generalize (ProfilePage.updateData (ProfilePage.profileForm p) (user (state w))).
  intros d. destruct (ProfilePage.has_keys d) eqn:Hkeys.
  - unfold AuthProvider.updateProfile. unfold_methods. unfold_control.
    rewrite request_run. cbv beta iota zeta.
    assert (Hreq : exists q qs, Js.wire (apiService.ProfileUpdateData_object d) = q :: qs).
    { destruct (Js.wire (apiService.ProfileUpdateData_object d)) as [|q qs] eqn:Hw; [|eauto].
      apply has_keys_wire in Hw. congruence. }
    destruct Hreq as (q & qs & Hw). rewrite Hw.
    destruct reply as [r|st msg|msg]; simpl.
    2: destruct (bool_decide (st = 401) && auth_sensitive "/auth/profile"); simpl.
    1: destruct (success r); simpl; [destruct (data r); simpl|].
    all: (split; [eexists; split; reflexivity|]).
    all: eexists; (split; [reflexivity|]).
    all: match goal with
         | |- context [outgoing ?m ?u ?ps ?b ?w0] =>
             destruct (outgoing_fields m u ps b w0) as (Hm & Hu & _ & Hb)
         end.
    all: rewrite Hm, Hu, Hb; repeat split.
    all: unfold fmap, option_fmap, option_map; rewrite Hw; reflexivity.
  - apply has_keys_wire in Hkeys as Hw. rewrite Hw.
    split; [eexists; split; reflexivity|]. split; [destruct w; reflexivity|reflexivity].
Qed.

(** The user of the test suite changes only the bio. *)
Lemma handleProfileUpdate_sends_only_changes_witness :
  let p := {| ProfilePage.editMode := true; ProfilePage.passwordDialogOpen := false;
              ProfilePage.profileForm :=
                {| ProfilePage.form_name := "Test User"; ProfilePage.form_bio := "Reader";
                   ProfilePage.form_avatarUrl := "" |};
              ProfilePage.passwordForm := ProfilePage.emptyPasswordForm;
              ProfilePage.updateLoading := false; ProfilePage.shown_error := None;
              ProfilePage.shown_success := None |} in
  exists req,
    sent (world_after
            (ProfilePage.handleProfileUpdate mock_stringify p (NetworkError "offline"))
            signedInWorld)
      = (sent signedInWorld ++ [req])%list /\
    Js.wire <$> body req = Some [("bio", Js.Str "Reader")].
Proof.
  intros p.
  destruct (proj2 (handleProfileUpdate_sends_only_changes mock_stringify p
                     (NetworkError "offline") signedInWorld))
    as (req & Hs & _ & _ & Hb).
  exists req. split; assumption.
Defined.

(** X20: [handlePasswordChange] never throws, always ends with
    [updateLoading] false and never changes edit mode.  With a confirmation
    that differs from the new password it sends nothing and shows the
    mismatch error; the dialog closes and the form is emptied only on a
    reply with [success]; on every failure an error is shown and the
    dialog and the form stay as they were. *)
Theorem handlePasswordChange_outcomes (p : ProfilePage.PageState)
    (reply : Reply (ApiResponse unit)) (w : World) :
  let m := ProfilePage.handlePasswordChange p reply in
  let form := ProfilePage.passwordForm p in
  exists p',
    outcome_of m w = Returned p' /\
    ProfilePage.updateLoading p' = false /\
    ProfilePage.editMode p' = ProfilePage.editMode p /\
    (if negb (String.eqb (newPassword form) (confirmPassword form)) then
       world_after m w = w /\
       ProfilePage.shown_error p' = Some "New password and confirm password do not match" /\
       ProfilePage.passwordForm p' = form /\
       ProfilePage.passwordDialogOpen p' = ProfilePage.passwordDialogOpen p
     else
       match reply with
       | Ok2xx r =>
           if success r then
             ProfilePage.shown_error p' = None /\
             ProfilePage.shown_success p' = Some "Password changed successfully!" /\
             ProfilePage.passwordForm p' = ProfilePage.emptyPasswordForm /\
             ProfilePage.passwordDialogOpen p' = false
           else
             is_Some (ProfilePage.shown_error p') /\
             ProfilePage.shown_success p' = None /\
             ProfilePage.passwordForm p' = form /\
             ProfilePage.passwordDialogOpen p' = ProfilePage.passwordDialogOpen p
       | _ =>
           is_Some (ProfilePage.shown_error p') /\
           ProfilePage.shown_success p' = None /\
           ProfilePage.passwordForm p' = form /\
           ProfilePage.passwordDialogOpen p' = ProfilePage.passwordDialogOpen p
       end).
Proof.
  intros m form. subst m form.
  unfold ProfilePage.handlePasswordChange, AuthProvider.changePassword.
  unfold_methods. unfold_control. simpl.
  destruct (String.eqb (newPassword (ProfilePage.passwordForm p))
              (confirmPassword (ProfilePage.passwordForm p))); simpl.
  - rewrite request_run. cbv beta iota zeta.
    destruct reply as [r|st msg|msg]; simpl.
    2: destruct (bool_decide (st = 401) && auth_sensitive "/auth/change-password"); simpl.
    1: destruct (success r); simpl.
    all: eexists; repeat split; eauto.
  - eexists. repeat split.
Qed.

(** ** Favorite toggles *)

Lemma favorite_url_not_auth_sensitive (bookId : Z) :
  auth_sensitive ("/books/" ++ Js.of_number bookId ++ "/favorite") = false.
Proof. apply numbered_url_not_auth_sensitive; reflexivity. Qed.

(** What a favorite mutation with a given [onSuccess] does. *)
Lemma favorite_request_run (m : Method) (bookId : Z) (reply : Reply (ApiResponse unit))
    (w : World) :
  apiService.request m ("/books/" ++ Js.of_number bookId ++ "/favorite") [] None reply w =
    (match reply with
     | Ok2xx d => Returned d
     | HttpError st msg =>
         Thrown (AxiosError (Some ("/books/" ++ Js.of_number bookId ++ "/favorite"))
                   (Some st) msg)
     | NetworkError msg =>
         Thrown (AxiosError (Some ("/books/" ++ Js.of_number bookId ++ "/favorite")) None msg)
     end,
     with_sent
       (fun l => (l ++ [outgoing m ("/books/" ++ Js.of_number bookId ++ "/favorite")
                          [] None w])%list) w).
Proof.
  rewrite request_run, favorite_url_not_auth_sensitive. cbv zeta.
  destruct reply; simpl; rewrite ?andb_false_r; reflexivity.
Qed.

Lemma lookup_invalidated (p : list KeyPart -> bool) (q : gmap (list KeyPart) Entry)
    (k : list KeyPart) :
  map_imap (fun k e => Some (if p k then invalidate e else e)) q !! k =
    (fun e => if p k then invalidate e else e) <$> q !! k.
Proof. rewrite map_lookup_imap. destruct (q !! k); reflexivity. Qed.

Lemma fmap_id_lookup (q : gmap (list KeyPart) Entry) (k : list KeyPart) :
  q !! k = (fun e => e) <$> q !! k.
Proof. destruct (q !! k); reflexivity. Qed.


Lemma favoriteKey_not_userFavorites (bookId : Z) (k : list KeyPart) :
  BookDetailsPage.favoriteKey bookId `prefix_of` k -> userFavoritesKey `prefix_of` k -> False.
Proof.
  intros [a ->] [b Hb]. discriminate Hb.
Qed.


(** X23: removing a favorite on the favorites page.  When the
    confirmation is declined nothing is sent and nothing changes; when it
    is accepted one DELETE to [/books/{id}/favorite] is sent, and a 2xx
    reply invalidates exactly the entries under [userFavorites]: the cached
    favorite status of the book itself is never invalidated. *)
Theorem FavoritesPage_remove_effects (confirmed : bool) (bookId : Z)
    (reply : Reply (ApiResponse unit)) (w : World) :
  let m := FavoritesPage.handleRemoveFromFavorites confirmed bookId reply in
  let w' := world_after m w in
  outcome_of m w = Returned tt /\
  sent w' =
    (sent w ++
     when confirmed
       (outgoing DELETE ("/books/" ++ Js.of_number bookId ++ "/favorite") [] None w))%list /\
  (forall k, queries w' !! k =
     (fun e => if confirmed && is_ok reply && bool_decide (userFavoritesKey `prefix_of` k)
               then invalidate e else e) <$> queries w !! k) /\
  (forall k, favoriteKey bookId `prefix_of` k -> queries w' !! k = queries w !! k).
Proof.
  intros m w'.
  assert (Hq : forall k, queries w' !! k =
     (fun e => if confirmed && is_ok reply && bool_decide (userFavoritesKey `prefix_of` k)
               then invalidate e else e) <$> queries w !! k).
  { subst m w'.
    unfold FavoritesPage.handleRemoveFromFavorites, FavoritesPage.removeFromFavoritesMutation,
      mutate, invalidateQueries.
    unfold_methods. unfold_control.
    destruct confirmed; simpl; [|intros k; apply fmap_id_lookup].
    rewrite favorite_request_run.
    destruct reply as [d|st msg|msg]; simpl.
    all: intros k; rewrite ?lookup_invalidated; try apply fmap_id_lookup; reflexivity. }
  split; [|split; [|split; [exact Hq|]]].
  - subst m w'.
    unfold FavoritesPage.handleRemoveFromFavorites, FavoritesPage.removeFromFavoritesMutation,
      mutate, invalidateQueries.
    unfold_methods. unfold_control.
    destruct confirmed; simpl; [|reflexivity].
    rewrite favorite_request_run. destruct reply; reflexivity.
  - subst m w'.
    unfold FavoritesPage.handleRemoveFromFavorites, FavoritesPage.removeFromFavoritesMutation,
      mutate, invalidateQueries, when.
    unfold_methods. unfold_control.
    destruct confirmed; simpl; [|symmetry; apply app_nil_r].
    rewrite favorite_request_run. destruct reply; reflexivity.
  - intros k Hk. rewrite Hq.
    rewrite (bool_decide_eq_false_2 (userFavoritesKey `prefix_of` k)).
    + rewrite andb_false_r. symmetry. apply fmap_id_lookup.
    + intros Hf. exact (favoriteKey_not_userFavorites bookId k Hk Hf).
Qed.

(** ** Reviews *)

Ltac unfold_review_methods :=
  unfold apiService.createReview, apiService.updateReview, apiService.deleteReview,
    apiService.searchBooks, apiService.submitReview in *.

Lemma book_reviews_url_not_auth_sensitive (bookId : Z) :
  auth_sensitive ("/books/" ++ Js.of_number bookId ++ "/reviews") = false.
Proof. apply numbered_url_not_auth_sensitive; reflexivity. Qed.


(** A request to a URL that is not auth-sensitive only appends to the
    log of requests. *)
Lemma plain_request_run {A : Type} (m : Method) (u : string) (ps : Js.object)
    (b : option Js.object) (reply : Reply A) (w : World) :
  auth_sensitive u = false ->
  apiService.request m u ps b reply w =
    (match reply with
     | Ok2xx d => Returned d
     | HttpError st msg => Thrown (AxiosError (Some u) (Some st) msg)
     | NetworkError msg => Thrown (AxiosError (Some u) None msg)
     end,
     with_sent (fun l => (l ++ [outgoing m u ps b w])%list) w).
Proof.
  intros Hu. rewrite request_run, Hu. cbv zeta.
  destruct reply; simpl; rewrite ?andb_false_r; reflexivity.
Qed.

(** X24: submitting a review on the book details page.  Signed out the
    handler navigates to [/login], sends nothing and changes nothing.
    Signed in it sends one POST to [/books/{id}/reviews] with the rating
    and the text (empty when absent), never navigates and never touches
    the session, even on a 401.  Every 2xx reply, whatever its [success]
    field, closes the dialog, clears the error and invalidates the entries
    under [bookReviews, id] and [book, id]; a rejection keeps the dialog and
    shows the message of the response, or [Failed to submit review] when
    that is empty or there was no response. *)
Theorem BookDetailsPage_handleReviewSubmit_outcomes (bookId : Z)
    (form : BookDetailsPage.ReviewFormData) (p : BookDetailsPage.PageState)
    (reply : Reply (ApiResponse Review)) (w : World) :
  let m := BookDetailsPage.handleReviewSubmit bookId form p reply in
  let w' := world_after m w in
  if isAuthenticated (state w) then
    sent w' =
      (sent w ++
       [outgoing POST ("/books/" ++ Js.of_number bookId ++ "/reviews") []
          (Some [("rating", Js.Num (BookDetailsPage.form_rating form));
                 ("reviewText",
                  Js.Str (Js.or_else (BookDetailsPage.form_reviewText form) ""))]) w])%list /\
    state w' = state w /\
    localStorage w' = localStorage w /\
    location_href w' = location_href w /\
    (forall k, queries w' !! k =
       (fun e => if is_ok reply
                    && (bool_decide ([KStr "bookReviews"; KNum bookId] `prefix_of` k)
                        || bool_decide ([KStr "book"; KNum bookId] `prefix_of` k))
                 then invalidate e else e) <$> queries w !! k) /\
    outcome_of m w =
      Returned
        {| BookDetailsPage.page :=
             match reply with
             | Ok2xx _ =>
                 {| BookDetailsPage.reviewsPage := BookDetailsPage.reviewsPage p;
                    BookDetailsPage.isReviewDialogOpen := false;
                    BookDetailsPage.reviewSubmitError := None |}
             | HttpError _ msg =>
                 {| BookDetailsPage.reviewsPage := BookDetailsPage.reviewsPage p;
                    BookDetailsPage.isReviewDialogOpen := BookDetailsPage.isReviewDialogOpen p;
                    BookDetailsPage.reviewSubmitError :=
                      Some (if String.eqb msg "" then "Failed to submit review" else msg) |}
             | NetworkError _ =>
                 {| BookDetailsPage.reviewsPage := BookDetailsPage.reviewsPage p;
                    BookDetailsPage.isReviewDialogOpen := BookDetailsPage.isReviewDialogOpen p;
                    BookDetailsPage.reviewSubmitError := Some "Failed to submit review" |}
             end;
           BookDetailsPage.navigated := None |}
  else
    w' = w /\
    outcome_of m w =
      Returned {| BookDetailsPage.page := p; BookDetailsPage.navigated := Some "/login" |}.
Proof.
  intros m w'. subst m w'.
  unfold BookDetailsPage.handleReviewSubmit, BookDetailsPage.submitReviewMutation,
    invalidateQueries.
  unfold_review_methods. unfold_control.
  destruct (isAuthenticated (state w)) eqn:Hauth; simpl.
  - rewrite plain_request_run by apply book_reviews_url_not_auth_sensitive.
    destruct reply as [d|st msg|msg]; simpl.
    all: repeat match goal with |- _ /\ _ => split end; try reflexivity.
    all: intros k; rewrite ?lookup_invalidated; try apply fmap_id_lookup.
    destruct (queries w !! k) as [e|]; simpl; [|reflexivity].
    do 2 case_bool_decide; reflexivity.
  - split; [destruct w|]; reflexivity.
Qed.

(** ** The recommendation view *)


Lemma split_nonempty (sep : N) (s : JsString.t) : JsString.split sep s <> [].
Proof.
  destruct s as [|c s]; simpl; [discriminate|].
  case_bool_decide; [discriminate|]. destruct (JsString.split sep s); discriminate.
Qed.

Lemma split_join (sep : N) (s : JsString.t) : join sep (JsString.split sep s) = s.
Proof.
  induction s as [|c s IH]; [reflexivity|]. simpl.
  pose proof (split_nonempty sep s) as Hne.
  destruct (JsString.split sep s) as [|piece pieces]; [contradiction|].
  case_bool_decide as Hc.
  - subst c. simpl. f_equal. exact IH.
  - destruct pieces as [|piece' pieces]; simpl in *; f_equal; exact IH.
Qed.

Lemma split_no_sep (sep : N) (s : JsString.t) :
  Forall (fun piece => sep ∉ piece) (JsString.split sep s).
Proof.
  induction s as [|c s IH]; simpl; [repeat constructor; apply not_elem_of_nil|].
  case_bool_decide as Hc; [constructor; [apply not_elem_of_nil|exact IH]|].
  destruct (JsString.split sep s) as [|piece pieces].
  - repeat constructor. intros Hin. apply list_elem_of_singleton in Hin. congruence.
  - inversion IH as [|? ? Hp Hps]; subst. constructor; [|exact Hps].
    intros Hin. apply elem_of_cons in Hin as [Hin|Hin]; [congruence|contradiction].
Qed.

Lemma trim_no_sep (c : N) (s : JsString.t) : c ∉ s -> c ∉ JsString.trim s.
Proof.
  destruct (trim_spec s) as (pre & post & Hs & _). intros H Hin. apply H.
  rewrite Hs. apply elem_of_app. right. apply elem_of_app. left. exact Hin.
Qed.

Lemma trim_trimmed (s : JsString.t) : trimmed (JsString.trim s).
Proof. destruct (trim_spec s) as (pre & post & _ & _ & _ & H). exact H. Qed.

(** A text has no code units exactly when it is empty. *)
Lemma code_points_nil (bs : list N) : JsString.code_points bs = [] -> bs = [].
Proof.
  destruct bs as [|b0 rest]; [reflexivity|]. simpl.
  repeat (case_match; try discriminate).
Qed.

Lemma units_nil (s : string) : JsString.units s = [] <-> s = "".
Proof.
  split; [|intros ->; reflexivity].
  unfold JsString.units, JsString.bytes. intros H.
  destruct s as [|c s]; [reflexivity|]. exfalso.
  destruct (JsString.code_points (N_of_ascii <$> String.list_ascii_of_string (String c s)))
    as [|cp cps] eqn:Hcp.
  - apply code_points_nil in Hcp. discriminate Hcp.
  - simpl in H. unfold JsString.utf16 in H. destruct (cp <? 65536)%N; discriminate H.
Qed.

(** X26: the genre chips of a recommendation card.  There are at most
    two; there is none exactly when [genres] is empty; no chip contains a
    comma or starts or ends with white space; and the chips are the first
    two of the comma-free pieces that, joined by commas, give back the
    code units of [genres], each with the white space around it
    removed. *)
Theorem genreChips_shape (book : Book) :
  let chips := RecommendationCard.genreChips book in
  (length chips <= 2)%nat /\
  (chips = [] <-> genres book = "") /\
  Forall (fun chip => (44%N ∉ chip) /\ trimmed chip) chips /\
  exists pieces,
    join 44 pieces = JsString.units (genres book) /\
    Forall (fun piece => 44%N ∉ piece) pieces /\
    chips = if String.eqb (genres book) "" then [] else JsString.trim <$> take 2 pieces.
Proof.
  intros chips. subst chips. unfold RecommendationCard.genreChips.
  pose proof (split_nonempty 44 (JsString.units (genres book))) as Hne.
  pose proof (split_no_sep 44 (JsString.units (genres book))) as Hsep.
  pose proof (split_join 44 (JsString.units (genres book))) as Hjoin.
  pose proof (units_nil (genres book)) as Hnil.
  destruct (String.eqb_spec (genres book) "") as [He|He].
  - rewrite (proj2 Hnil He) in *. simpl.
    split; [lia|]. split; [split; auto|]. split; [constructor|].
    exists (JsString.split 44 []). repeat split; assumption.
  - destruct (JsString.units (genres book)) as [|c r] eqn:Hu.
    { exfalso. apply He, Hnil. reflexivity. }
    cbn [JsString.truthy].
    split; [|split; [|split]].
    + rewrite length_fmap, length_take. lia.
    + split; [|contradiction].
      destruct (JsString.split 44 (c :: r)); [contradiction|discriminate].
    + apply Forall_fmap. eapply Forall_impl; [apply Forall_take, Hsep|].
      intros piece Hp. simpl. split; [apply trim_no_sep, Hp|apply trim_trimmed].
    + exists (JsString.split 44 (c :: r)). repeat split; assumption.
Qed.

(** The two genres of the book of the test suite; three genres with white
    space around them; and a genres text that is one no-break space, which
    gives one chip with an empty label. *)
Example genreChips_examples :
  RecommendationCard.genreChips mockBook
    = [JsString.units "Fiction"; JsString.units "Drama"] /\
  RecommendationCard.genreChips
    {| book_id := 2; title := "Test Book 2"; author := "Test Author 2";
       genres := " Science Fiction , Space Opera,Classics" |}
    = [JsString.units "Science Fiction"; JsString.units "Space Opera"] /\
  RecommendationCard.genreChips
    {| book_id := 3; title := "Test Book 3"; author := "Test Author 3"; genres := nbsp |}
    = [[]].
Proof. vm_compute. repeat split. Qed.

(** X27: [getTypeIcon] and [getTypeColor] partition the recommendation
    types in the same way: two types get the same icon exactly when they
    get the same color; the default icon is given exactly to the types
    outside the five named ones; and two types that share an icon are
    equal or both get the default. *)
Theorem type_icon_and_color_agree (t1 t2 : string) :
  (RecommendationCard.getTypeIcon t1 = RecommendationCard.getTypeIcon t2
   <-> RecommendationCard.getTypeColor t1 = RecommendationCard.getTypeColor t2) /\
  (RecommendationCard.getTypeIcon t1 = RecommendationCard.BookmarkAdd
   <-> t1 <> "genre_similarity" /\ t1 <> "community_favorite" /\ t1 <> "genre_trending"
       /\ t1 <> "user_favorite" /\ t1 <> "ai_recommendation") /\
  (RecommendationCard.getTypeIcon t1 = RecommendationCard.getTypeIcon t2
   <-> t1 = t2 \/
       (RecommendationCard.getTypeIcon t1 = RecommendationCard.BookmarkAdd /\
        RecommendationCard.getTypeIcon t2 = RecommendationCard.BookmarkAdd)).
Proof.
  unfold RecommendationCard.getTypeIcon, RecommendationCard.getTypeColor.
  repeat match goal with
         | |- context [String.eqb ?a ?b] => destruct (String.eqb_spec a b); subst
         end.
  all: split; [split; intros H; try discriminate H; reflexivity|].
  all: split; [split; [intros H; try discriminate H; repeat split; assumption
                      |intros (H1 & H2 & H3 & H4 & H5); try reflexivity; congruence]|].
  all: split; [intros H; try discriminate H; auto
              |intros [H|[H1 H2]]; try discriminate; try reflexivity; congruence].
Qed.

(** ** The reviews page *)

Lemma search_url_not_auth_sensitive : auth_sensitive "/books/search" = false.
Proof. reflexivity. Qed.

(** X28: [handleBookSearch] never throws and never touches the session.
    It always records the query as typed.  When the query with the white
    space at both ends removed has fewer than two code units it sends
    nothing and clears the results; otherwise it sends one GET to
    [/books/search] with the query as typed (not trimmed), page 0 and
    size 10, shows the books of a 2xx reply, and on a failure clears the
    results and logs one console entry; it ends with [isSearching]
    false. *)
Theorem handleBookSearch_outcomes (query : string) (p : MyReviewsPage.PageState)
    (reply : Reply (PaginatedResponse Book)) (w : World) :
  let m := MyReviewsPage.handleBookSearch query p reply in
  let w' := world_after m w in
  let short := (JsString.length (JsString.trim (JsString.units query)) <? 2)%nat in
  sent w' =
    (sent w ++
     when (negb short)
       (outgoing GET "/books/search"
          [("query", Js.Str query); ("page", Js.Num 0); ("size", Js.Num 10)] None w))%list /\
  state w' = state w /\
  localStorage w' = localStorage w /\
  location_href w' = location_href w /\
  length (console w') =
    (length (console w) + (if negb short && negb (is_ok reply) then 1 else 0))%nat /\
  exists p',
    outcome_of m w = Returned p' /\
    MyReviewsPage.searchQuery p' = query /\
    MyReviewsPage.searchResults p' =
      (if short then []
       else match reply with
            | Ok2xx d => content d
            | _ => []
            end) /\
    MyReviewsPage.isSearching p' = (if short then MyReviewsPage.isSearching p else false) /\
    MyReviewsPage.isDialogOpen p' = MyReviewsPage.isDialogOpen p /\
    MyReviewsPage.currentReview p' = MyReviewsPage.currentReview p /\
    MyReviewsPage.selectedBook p' = MyReviewsPage.selectedBook p /\
    MyReviewsPage.activeStep p' = MyReviewsPage.activeStep p.
Proof.
  intros m w' short. subst m w' short.
  unfold MyReviewsPage.handleBookSearch, when.
  destruct (JsString.length (JsString.trim (JsString.units query)) <? 2)%nat; simpl.
  - unfold_control. rewrite app_nil_r, Nat.add_0_r.
    repeat match goal with |- _ /\ _ => split end; try reflexivity.
    eexists. repeat split.
  - unfold_review_methods. unfold_control.
    rewrite plain_request_run by reflexivity.
    destruct reply as [d|st msg|msg]; simpl.
    all: rewrite ?length_app; simpl.
    all: repeat match goal with |- _ /\ _ => split end; try reflexivity; try lia.
    all: eexists; repeat split.
Qed.

(** One accented letter, and one letter between two no-break spaces: too
    short after trimming, so nothing is sent; two letters are sent as
    typed. *)
Example handleBookSearch_examples :
  let search query :=
    (fun r => (url r, params r)) <$>
      sent (world_after
              (MyReviewsPage.handleBookSearch query emptyReviewsPage (NetworkError "offline"))
              (page_load ∅)) in
  search e_acute = [] /\
  search (nbsp ++ "a" ++ nbsp) = [] /\
  search " ab" =
    [("/books/search", [("query", Js.Str " ab"); ("page", Js.Num 0); ("size", Js.Num 10)])].
Proof. vm_compute. repeat split. Qed.




(** ** Scenarios on the cached favorites *)


(** A successful removal of book 1 on the favorites page leaves its cached
    favorite status as it was. *)
Lemma FavoritesPage_remove_effects_witness :
  let k := [KStr "bookFavorite"; KNum 1] in
  let w' := world_after (FavoritesPage.handleRemoveFromFavorites true 1 (Ok2xx mockOk))
              favoritesWorld in
  queries w' !! k = queries favoritesWorld !! k.
Proof.
  intros k w'.
  apply (proj2 (proj2 (proj2 (FavoritesPage_remove_effects true 1 (Ok2xx mockOk)
                                favoritesWorld)))).
  exists []. reflexivity.
Defined.
